(** * weather.py: a shallow embedding and the properties of its specification

    The program reads a city and a unit flag, reads an API key from
    [secrets.ini], builds a request URL, performs one HTTP GET, decodes the
    JSON body and prints one line.

    Python [str] values are modelled as [string]s holding the UTF-8 bytes of
    the text (a lone surrogate code point is held in its three-byte form),
    and [bytes] values as [string]s of the bytes themselves. *)

From Stdlib Require Import ZArith Ascii String List Floats Lia.
From stdpp Require Import base option list strings gmap pretty.

Local Open Scope string_scope.
Local Open Scope Z_scope.

(** ** Text: the [str] methods and built-ins the program calls *)

Module PyStr.

Definition code (c : ascii) : Z := Z.of_N (N_of_ascii c).
Definition chr (n : Z) : ascii := ascii_of_N (Z.to_N n).

Definition in_range (lo hi : Z) (c : ascii) : bool :=
  (lo <=? code c) && (code c <=? hi).

(** A byte [10xxxxxx] continues a code point; every other byte starts one. *)
Definition is_continuation (c : ascii) : bool := in_range 128 191 c.

(** [len(s)]: the number of code points. *)
Fixpoint len (s : string) : nat :=
  match s with
  | EmptyString => 0%nat
  | String c s' => if is_continuation c then len s' else S (len s')
  end.

Fixpoint repeat (c : ascii) (n : nat) : string :=
  match n with
  | O => EmptyString
  | S n' => String c (repeat c n')
  end.

(** [sep.join(parts)]. *)
Definition join (sep : string) (parts : list string) : string :=
  String.concat sep parts.

(** [s.startswith(prefix)]. *)
Fixpoint startswith (s prefix : string) {struct prefix} : bool :=
  match prefix with
  | EmptyString => true
  | String a prefix' =>
      match s with
      | EmptyString => false
      | String b s' => Ascii.eqb a b && startswith s' prefix'
      end
  end.

(** [sub in s]. *)
Fixpoint contains (sub s : string) : bool :=
  startswith s sub ||
  match s with
  | EmptyString => false
  | String _ s' => contains sub s'
  end.

(** [s.endswith(suffix)]. *)
Fixpoint endswith (s suffix : string) : bool :=
  String.eqb s suffix ||
  match s with
  | EmptyString => false
  | String _ s' => endswith s' suffix
  end.

(** [s.replace(old, new)] for one-character [old] and [new]. *)
Fixpoint replace_char (old new : ascii) (s : string) : string :=
  match s with
  | EmptyString => EmptyString
  | String c s' =>
      String (if Ascii.eqb c old then new else c) (replace_char old new s')
  end.

Definition upper_char (c : ascii) : ascii :=
  if in_range 97 122 c then chr (code c - 32) else c.
Definition lower_char (c : ascii) : ascii :=
  if in_range 65 90 c then chr (code c + 32) else c.

Fixpoint lower (s : string) : string :=
  match s with
  | EmptyString => EmptyString
  | String c s' => String (lower_char c) (lower s')
  end.

(** [s.capitalize()]: first character to upper case, the others to lower
    case.  The case tables are those of the ASCII letters; the bytes of
    other code points are kept. *)
Definition capitalize (s : string) : string :=
  match s with
  | EmptyString => EmptyString
  | String c s' => String (upper_char c) (lower s')
  end.

(** [format(s, "^width")] on the text [s]: centred with spaces, the odd
    space on the right. *)
Definition center (s : string) (width : nat) : string :=
  let pad := (width - len s)%nat in
  let left := Nat.div pad 2 in
  repeat " " left +:+ s +:+ repeat " " (pad - left).

(** The first code point of [s] as a string, for [s[0]]. *)
Fixpoint take_continuation (s : string) : string :=
  match s with
  | String c s' =>
      if is_continuation c then String c (take_continuation s')
      else EmptyString
  | EmptyString => EmptyString
  end.

Definition first_char (s : string) : option string :=
  match s with
  | EmptyString => None
  | String c s' => Some (String c (take_continuation s'))
  end.

(** A surrogate code point U+D800..U+DFFF sits in the bytes as
    [ED A0..BF xx]; [s.encode("utf-8")] refuses it. *)
Fixpoint has_surrogate (s : string) : bool :=
  match s with
  | EmptyString => false
  | String c s' =>
      match s' with
      | String d _ => (code c =? 237) && in_range 160 191 d
      | EmptyString => false
      end || has_surrogate s'
  end.

End PyStr.

(** ** Numbers: how a [float] is written

    [repr(x)], which [str(x)] and [format(x, "")] also give: the shortest
    decimal that reads back as [x], in positional notation when the decimal
    point falls within [-4 < decpt <= 16] and in exponent notation
    otherwise. *)

Module PyFloat.

Definition pow10 (k : Z) : Z := 10 ^ Z.max 0 k.
Definition pow2 (k : Z) : Z := 2 ^ Z.max 0 k.

(** The least [k'] from [k] on with [num/den < 10^k']. *)
Fixpoint decimal_exponent (fuel : nat) (num den k : Z) : Z :=
  match fuel with
  | O => k
  | S fuel' =>
      if num * pow10 (- k) <? den * pow10 k then k
      else decimal_exponent fuel' num den (k + 1)
  end.

(** The digits: with [n] digits the candidates are the two multiples of
    [10^(k-n)] around [x/den]; one is taken when it lies in the rounding
    interval [lo/den .. hi/den] of the float (ends included when the
    mantissa is even), the nearer one when both do, the even one when
    they are equally near. *)
Fixpoint shortest_go (fuel : nat) (n : Z) (even : bool)
    (lo x hi den k : Z) : Z * Z :=
  let sn := pow10 (k - n) in
  let sd := pow10 (n - k) in
  let q := (x * sd) / (den * sn) in
  let inside c :=
    if even then (lo * sd <=? c * sn * den) && (c * sn * den <=? hi * sd)
    else (lo * sd <? c * sn * den) && (c * sn * den <? hi * sd) in
  let pick :=
    match inside q, inside (q + 1) with
    | true, true =>
        Some (if 2 * x * sd <? (2 * q + 1) * sn * den then q
              else if 2 * x * sd =? (2 * q + 1) * sn * den
                   then (if Z.even q then q else q + 1)
              else q + 1)
    | true, false => Some q
    | false, true => Some (q + 1)
    | false, false => None
    end in
  match pick, fuel with
  | Some c, _ => if c =? 10 ^ n then (1, k + 1) else (c, k)
  | None, S fuel' => shortest_go fuel' (n + 1) even lo x hi den k
  | None, O => (q, k)
  end.

(** The float [m * 2^e] of binary64, [m] its 53-bit mantissa. *)
Definition shortest (m e : Z) : Z * Z :=
  let up := pow2 (e - 2) in
  let den := pow2 (2 - e) in
  let below := if (m =? 2 ^ 52) && (-1074 <? e) then 1 else 2 in
  let x := 4 * m * up in
  let k := decimal_exponent 700 x den (-330) in
  shortest_go 17 1 (Z.even m) ((4 * m - below) * up) x ((4 * m + 2) * up) den k.

Definition zeros (n : Z) : string := PyStr.repeat "0" (Z.to_nat n).

Definition repr_finite (m e : Z) : string :=
  let (c, decpt) := shortest m e in
  let ds := pretty c in
  let n := Z.of_nat (String.length ds) in
  if (-4 <? decpt) && (decpt <=? 16) then
    if decpt <=? 0 then "0." +:+ zeros (- decpt) +:+ ds
    else if decpt <? n then
      substring 0 (Z.to_nat decpt) ds +:+ "." +:+
      substring (Z.to_nat decpt) (Z.to_nat (n - decpt)) ds
    else ds +:+ zeros (decpt - n) +:+ ".0"
  else
    let ex := decpt - 1 in
    substring 0 1 ds +:+
    (if 1 <? n then "." +:+ substring 1 (Z.to_nat (n - 1)) ds else "") +:+
    "e" +:+ (if ex <? 0 then "-" else "+") +:+
    (if Z.abs ex <? 10 then "0" else "") +:+ pretty (Z.abs ex).

Definition repr (f : float) : string :=
  match Prim2SF f with
  | S754_nan => "nan"
  | S754_infinity s => if s then "-inf" else "inf"
  | S754_zero s => if s then "-0.0" else "0.0"
  | S754_finite s m e =>
      (if s then "-" else "") +:+ repr_finite (Z.pos m) e
  end.

End PyFloat.

(** ** Python values, exceptions and the outcome of a call *)

(** What [json.loads] returns: the JSON shapes as Python objects.  A [dict]
    keeps its items in insertion order, as [VDict] does; its keys are
    distinct. *)
#[warnings="-register-all"]
Inductive value : Type :=
  | VNone
  | VBool (b : bool)
  | VInt (n : Z)
  | VFloat (f : float)
  | VStr (s : string)
  | VList (l : list value)
  | VDict (items : list (string * value)).

Inductive exn : Type :=
  | KeyError (key : value)
  | IndexError
  | TypeError
  | AttributeError
  | UnicodeEncodeError
  | UnicodeDecodeError
  | JSONDecodeError
  | DecoderFault
  | ConfigParserError
  | HTTPError (code : Z)
  | URLError.

(** A call returns, raises an exception, or raises [SystemExit] through
    [sys.exit(msg)]. *)
Inductive outcome (A : Type) : Type :=
  | Ret (a : A)
  | Raise (e : exn)
  | SysExit (msg : string).
Arguments Ret {A} a.
Arguments Raise {A} e.
Arguments SysExit {A} msg.

Module PyObj.

Definition hex_digit (n : Z) : ascii :=
  if n <? 10 then PyStr.chr (48 + n) else PyStr.chr (87 + n).

(** [repr(s)] for a [str]: single quotes unless the text has one and no
    double quote; backslash escapes for the quote, the backslash and the
    control characters.  Code points above U+007F are taken as
    printable. *)
Definition repr_char (quote c : ascii) : string :=
  let n := PyStr.code c in
  if Ascii.eqb c quote || (n =? 92) then String "\" (String c "")
  else if n =? 9 then "\t"
  else if n =? 10 then "\n"
  else if n =? 13 then "\r"
  else if (n <? 32) || (n =? 127) then
    "\x" +:+ String (hex_digit (n / 16)) (String (hex_digit (n mod 16)) "")
  else String c "".

Fixpoint repr_chars (quote : ascii) (s : string) : string :=
  match s with
  | EmptyString => EmptyString
  | String c s' => repr_char quote c +:+ repr_chars quote s'
  end.

Definition repr_str (s : string) : string :=
  let double := PyStr.chr 34 in
  let quote : ascii :=
    if PyStr.contains "'" s && negb (PyStr.contains (String double "") s)
    then double else "'"%char in
  String quote (repr_chars quote s) +:+ String quote "".

(** [repr(v)]. *)
Fixpoint repr (v : value) : string :=
  match v with
  | VNone => "None"
  | VBool b => if b then "True" else "False"
  | VInt n => pretty n
  | VFloat f => PyFloat.repr f
  | VStr s => repr_str s
  | VList l => "[" +:+ PyStr.join ", " (map repr l) +:+ "]"
  | VDict items =>
      "{" +:+
      PyStr.join ", "
        (map (fun kv => repr_str (fst kv) +:+ ": " +:+ repr (snd kv)) items)
      +:+ "}"
  end.

(** [format(v, "")], what an f-string field [{v}] holds. *)
Definition format_plain (v : value) : string :=
  match v with
  | VStr s => s
  | _ => repr v
  end.

(** [format(v, "^width")], the f-string field [{v:^width}]: text and
    numbers are centred ([bool] as the [int] it is); the other types
    refuse a format specification. *)
Definition format_center (v : value) (width : nat) : outcome string :=
  match v with
  | VStr s => Ret (PyStr.center s width)
  | VInt n => Ret (PyStr.center (pretty n) width)
  | VBool b => Ret (PyStr.center (if b then "1" else "0") width)
  | VFloat f => Ret (PyStr.center (PyFloat.repr f) width)
  | VNone | VList _ | VDict _ => Raise TypeError
  end.

(** [v.capitalize()]: a method of [str] only. *)
Definition capitalize (v : value) : outcome value :=
  match v with
  | VStr s => Ret (VStr (PyStr.capitalize s))
  | _ => Raise AttributeError
  end.

Fixpoint lookup_item (key : string) (items : list (string * value))
    : option value :=
  match items with
  | [] => None
  | (k, v) :: rest => if String.eqb k key then Some v else lookup_item key rest
  end.

(** [v[key]] for a [str] key. *)
Definition getitem (v : value) (key : string) : outcome value :=
  match v with
  | VDict items =>
      match lookup_item key items with
      | Some x => Ret x
      | None => Raise (KeyError (VStr key))
      end
  | _ => Raise TypeError
  end.

(** [v[0]]. *)
Definition getitem0 (v : value) : outcome value :=
  match v with
  | VList l =>
      match l with
      | x :: _ => Ret x
      | [] => Raise IndexError
      end
  | VStr s =>
      match PyStr.first_char s with
      | Some c => Ret (VStr c)
      | None => Raise IndexError
      end
  | VDict _ => Raise (KeyError (VInt 0))
  | _ => Raise TypeError
  end.

End PyObj.

(** ** [urllib.parse.quote_plus] *)

Module Urllib.

Definition hex_upper (n : Z) : ascii :=
  if n <? 10 then PyStr.chr (48 + n) else PyStr.chr (55 + n).

Fixpoint char_in (c : ascii) (set : string) : bool :=
  match set with
  | EmptyString => false
  | String d set' => Ascii.eqb c d || char_in c set'
  end.

(** [_ALWAYS_SAFE]: the letters, the digits and [_.-~]. *)
Definition always_safe (c : ascii) : bool :=
  PyStr.in_range 65 90 c || PyStr.in_range 97 122 c ||
  PyStr.in_range 48 57 c || char_in c "_.-~".

(** One byte: itself when safe, [%XX] otherwise. *)
Definition quoter (safe : string) (c : ascii) : string :=
  if always_safe c || char_in c safe then String c ""
  else
    let n := PyStr.code c in
    String "%" (String (hex_upper (n / 16)) (String (hex_upper (n mod 16)) "")).

Fixpoint quote_from_bytes (bs safe : string) : string :=
  match bs with
  | EmptyString => EmptyString
  | String c bs' => quoter safe c +:+ quote_from_bytes bs' safe
  end.

(** [quote(string, safe)]: the text is first encoded as UTF-8, which fails
    on a surrogate. *)
Definition quote (s safe : string) : outcome string :=
  if PyStr.has_surrogate s then Raise UnicodeEncodeError
  else Ret (quote_from_bytes s safe).

(** [quote_plus(string)]: with a space in the text, spaces are kept by
    [quote] and then replaced by [+]. *)
Definition quote_plus (s : string) : outcome string :=
  if negb (PyStr.contains " " s) then quote s ""
  else
    match quote s " " with
    | Ret q => Ret (PyStr.replace_char " " "+" q)
    | other => other
    end.

End Urllib.

(** ** [json.loads] on the bytes of a response

    [loads] finds the encoding of the bytes, decodes them to text with the
    [surrogatepass] error handler, and hands the text to the decoder proper.
    The first two steps are modelled in full; the decoder of the text is
    taken from the environment (see [env]). *)

Module PyJson.

Inductive encoding : Type :=
  | UTF8 | UTF8_SIG | UTF16 | UTF16_BE | UTF16_LE | UTF32 | UTF32_BE | UTF32_LE.

Definition byte_list (s : string) : list Z :=
  map PyStr.code (list_ascii_of_string s).

Fixpoint starts_with (pre bs : list Z) : bool :=
  match pre, bs with
  | [], _ => true
  | p :: pre', b :: bs' => (p =? b) && starts_with pre' bs'
  | _ :: _, [] => false
  end.

Definition byte_at (bs : list Z) (i : nat) : Z := nth i bs 0.

(** [json.detect_encoding]. *)
Definition detect_encoding (bs : list Z) : encoding :=
  if starts_with [0; 0; 254; 255] bs || starts_with [255; 254; 0; 0] bs
  then UTF32
  else if starts_with [254; 255] bs || starts_with [255; 254] bs then UTF16
  else if starts_with [239; 187; 191] bs then UTF8_SIG
  else if (4 <=? length bs)%nat then
    if byte_at bs 0 =? 0 then
      if byte_at bs 1 =? 0 then UTF32_BE else UTF16_BE
    else if byte_at bs 1 =? 0 then
      if (byte_at bs 2 =? 0) && (byte_at bs 3 =? 0) then UTF32_LE else UTF16_LE
    else UTF8
  else if (length bs =? 2)%nat then
    if byte_at bs 0 =? 0 then UTF16_BE
    else if byte_at bs 1 =? 0 then UTF16_LE
    else UTF8
  else UTF8.

Definition is_cont (b : Z) : bool := (128 <=? b) && (b <=? 191).
Definition between (lo hi b : Z) : bool := (lo <=? b) && (b <=? hi).

(** Well-formed UTF-8, a surrogate in three bytes let through. *)
Fixpoint utf8_ok (bs : list Z) : bool :=
  match bs with
  | [] => true
  | a :: bs1 =>
      if a <? 128 then utf8_ok bs1
      else
        match bs1 with
        | [] => false
        | b :: bs2 =>
            if between 194 223 a then is_cont b && utf8_ok bs2
            else
              match bs2 with
              | [] => false
              | c :: bs3 =>
                  if between 224 239 a then
                    (if a =? 224 then between 160 191 b else is_cont b)
                    && is_cont c && utf8_ok bs3
                  else
                    match bs3 with
                    | [] => false
                    | d :: bs4 =>
                        between 240 244 a
                        && (if a =? 240 then between 144 191 b
                            else if a =? 244 then between 128 143 b
                            else is_cont b)
                        && is_cont c && is_cont d && utf8_ok bs4
                    end
              end
        end
  end.

(** The UTF-8 bytes of one code point. *)
Definition utf8_of_point (p : Z) : list Z :=
  if p <? 128 then [p]
  else if p <? 2048 then [192 + p / 64; 128 + p mod 64]
  else if p <? 65536 then
    [224 + p / 4096; 128 + (p / 64) mod 64; 128 + p mod 64]
  else
    [240 + p / 262144; 128 + (p / 4096) mod 64; 128 + (p / 64) mod 64;
     128 + p mod 64].

Definition text_of_points (ps : list Z) : string :=
  string_of_list_ascii (map PyStr.chr (concat (map utf8_of_point ps))).

Fixpoint utf16_units (little : bool) (bs : list Z) : option (list Z) :=
  match bs with
  | [] => Some []
  | a :: bs1 =>
      match bs1 with
      | [] => None
      | b :: bs2 =>
          match utf16_units little bs2 with
          | Some us => Some ((if little then a + 256 * b else 256 * a + b) :: us)
          | None => None
          end
      end
  end.

(** A high surrogate followed by a low one is one code point; any other
    surrogate passes as it is. *)
Fixpoint utf16_points (us : list Z) : list Z :=
  match us with
  | [] => []
  | u :: rest =>
      match rest with
      | v :: rest' =>
          if between 55296 56319 u && between 56320 57343 v
          then (65536 + (u - 55296) * 1024 + (v - 56320)) :: utf16_points rest'
          else u :: utf16_points rest
      | [] => [u]
      end
  end.

Fixpoint utf32_points (little : bool) (bs : list Z) : option (list Z) :=
  match bs with
  | [] => Some []
  | a :: b :: c :: d :: rest =>
      let p := if little then a + 256 * b + 65536 * c + 16777216 * d
               else 16777216 * a + 65536 * b + 256 * c + d in
      if p <? 1114112 then
        match utf32_points little rest with
        | Some ps => Some (p :: ps)
        | None => None
        end
      else None
  | _ => None
  end.

Definition decode_utf16 (little : bool) (bs : list Z) : option string :=
  match utf16_units little bs with
  | Some us => Some (text_of_points (utf16_points us))
  | None => None
  end.

Definition decode_utf32 (little : bool) (bs : list Z) : option string :=
  match utf32_points little bs with
  | Some ps => Some (text_of_points ps)
  | None => None
  end.

(** [data.decode(enc, "surrogatepass")]; [None] is [UnicodeDecodeError]. *)
Definition decode (enc : encoding) (bs : list Z) : option string :=
  match enc with
  | UTF8 =>
      if utf8_ok bs then Some (string_of_list_ascii (map PyStr.chr bs)) else None
  | UTF8_SIG =>
      let bs' := drop 3 bs in
      if utf8_ok bs' then Some (string_of_list_ascii (map PyStr.chr bs')) else None
  | UTF16 => decode_utf16 (byte_at bs 0 =? 255) (drop 2 bs)
  | UTF16_BE => decode_utf16 false bs
  | UTF16_LE => decode_utf16 true bs
  | UTF32 => decode_utf32 (byte_at bs 0 =? 255) (drop 4 bs)
  | UTF32_BE => decode_utf32 false bs
  | UTF32_LE => decode_utf32 true bs
  end.

(** [json.loads(data)] for [bytes]: [decoder] is [JSONDecoder().decode]. *)
Definition loads (decoder : string -> outcome value) (data : string)
    : outcome value :=
  let bs := byte_list data in
  match decode (detect_encoding bs) bs with
  | Some text => decoder text
  | None => Raise UnicodeDecodeError
  end.

End PyJson.

(** ** [configparser]: what [ConfigParser] holds and how it is read *)

Module PyConfig.

(** A parser after [read]: the options of [[DEFAULT]] and the other
    sections, option names as [optionxform] stores them. *)
Record parser : Type := {
  defaults : gmap string string;
  sections : gmap string (gmap string string)
}.

Definition empty : parser := {| defaults := ∅; sections := ∅ |}.

(** [parser[name]], a section proxy: the parser and the name. *)
Record proxy : Type := {
  proxy_parser : parser;
  proxy_name : string
}.

(** The options a lookup in section [name] sees: those of the section, then
    those of [[DEFAULT]]. *)
Definition unify_values (p : parser) (name : string) (opt : string)
    : option string :=
  match sections p !! name with
  | Some section =>
      match section !! opt with
      | Some v => Some v
      | None => defaults p !! opt
      end
  | None => defaults p !! opt
  end.

(** [parser.has_option(name, opt)], [opt] already through [optionxform]. *)
Definition has_option (p : parser) (name opt : string) : bool :=
  if String.eqb name "" || String.eqb name "DEFAULT" then
    bool_decide (is_Some (defaults p !! opt))
  else
    match sections p !! name with
    | None => false
    | Some section =>
        bool_decide (is_Some (section !! opt)) ||
        bool_decide (is_Some (defaults p !! opt))
    end.

(** [_KEYCRE] at the head of a text that follows [%(]: the name up to the
    first [)], not empty, then [s]; the name and what follows. *)
Fixpoint reference (s : string) : option (string * string) :=
  match s with
  | EmptyString => None
  | String c s' =>
      if Ascii.eqb c ")" then None
      else
        match s' with
        | String ")" (String "s" after) => Some (String c "", after)
        | _ =>
            match reference s' with
            | Some (name, after) => Some (String c name, after)
            | None => None
            end
        end
  end.

(** The loop of [BasicInterpolation._interpolate_some] over the text:
    [%%] is a percent sign, [%(name)s] the value of option [name], handed to
    [nested] when it holds a percent sign, any other [%] an error.  Every
    error is an exception of [configparser]. *)
Fixpoint scan (nested : string -> outcome string)
    (map : string -> option string) (fuel : nat) (rest : string)
    : outcome string :=
  match rest, fuel with
  | EmptyString, _ => Ret EmptyString
  | _, O => Ret EmptyString
  | String c rest1, S fuel' =>
      if negb (Ascii.eqb c "%") then
        match scan nested map fuel' rest1 with
        | Ret t => Ret (String c t)
        | other => other
        end
      else
        match rest1 with
        | String "%" rest2 =>
            match scan nested map fuel' rest2 with
            | Ret t => Ret (String "%" t)
            | other => other
            end
        | String "(" rest2 =>
            match reference rest2 with
            | None => Raise ConfigParserError
            | Some (name, after) =>
                match map (PyStr.lower name) with
                | None => Raise ConfigParserError
                | Some v =>
                    match (if PyStr.contains "%" v then nested v else Ret v) with
                    | Ret head =>
                        match scan nested map fuel' after with
                        | Ret t => Ret (head +:+ t)
                        | other => other
                        end
                    | other => other
                    end
                end
            end
        | _ => Raise ConfigParserError
        end
  end.

(** [_interpolate_some] with [depth] levels left of the ten that
    [MAX_INTERPOLATION_DEPTH] allows.  Option names are lower-cased with
    the ASCII tables. *)
Fixpoint interpolate_some (depth : nat) (map : string -> option string)
    (rest : string) : outcome string :=
  match depth with
  | O => Raise ConfigParserError
  | S depth' => scan (interpolate_some depth' map) map (String.length rest) rest
  end.

(** [parser.get(name, opt)]: the value, interpolated; without the option,
    [NoOptionError]. *)
Definition get (p : parser) (name opt : string) : outcome string :=
  match unify_values p name opt with
  | Some value => interpolate_some 10 (unify_values p name) value
  | None => Raise ConfigParserError
  end.

End PyConfig.

(** ** The world the program runs in *)

(** Modelled from the spec: module [style] is imported by weather.py and is
    not among the sources.  The spec calls its helpers process-wide terminal
    styling and the printed line colour/style-decorated and column-aligned:
    [PADDING] is the width of a column, [REVERSE], [RED] and [RESET] name
    styles, and [change_color c] switches the terminal to style [c], which
    on the output stream is the text [change_color_text c]. *)
Record style_module : Type := {
  PADDING : nat;
  REVERSE : string;
  RED : string;
  RESET : string;
  change_color_text : string -> string
}.

(** [secrets.ini] as [ConfigParser.read] finds it: no readable file (which
    [read] passes over), a file that is not text in the expected encoding, a
    file that is no configuration, or what the parser holds once the file
    is read. *)
Inductive secrets_file : Type :=
  | NoFile
  | Unparsable
  | Undecodable
  | IniFile (content : PyConfig.parser).

(** What [urlopen] meets: a response with its body, or an exception of
    [urllib.error] ([HTTPError code], [URLError]). *)
Inductive http_reply : Type :=
  | Response (body : string)
  | Failure (e : exn).

Record env : Type := {
  style : style_module;
  secrets_ini : secrets_file;
  network : string -> http_reply;
  (** [json.JSONDecoder().decode], the decoder of a JSON text: it returns
      the value or raises [JSONDecodeError] (or, on a text too deep or a
      number too long, another exception) *)
  json_decoder : string -> outcome value
}.

(** The calls the program makes to the outside world, in the order it makes
    them: [ReadFile name] is a call [config.read(name)], [HttpGet url] a call
    [request.urlopen(url)] (what [urllib] does within the call, the
    redirects it follows included, is its own), [ReadBody] a call
    [response.read()] and [JsonLoads data] a call [json.loads(data)]. *)
Inductive event : Type :=
  | ReadFile (name : string)
  | HttpGet (url : string)
  | ReadBody
  | JsonLoads (data : string).

Record state : Type := {
  stdout : string;
  log : list event
}.

Definition initial : state := {| stdout := ""; log := [] |}.

(** A computation reads the environment, threads the state and ends in an
    outcome; what was printed before an exception stays printed. *)
Definition M (A : Type) : Type := env -> state -> outcome A * state.

Definition ret {A} (a : A) : M A := fun _ st => (Ret a, st).

Definition bind {A B} (m : M A) (k : A -> M B) : M B :=
  fun e st =>
    match m e st with
    | (Ret a, st') => k a e st'
    | (Raise x, st') => (Raise x, st')
    | (SysExit msg, st') => (SysExit msg, st')
    end.

Notation "x <- m ;; k" := (bind m (fun x => k))
  (at level 100, m at next level, right associativity).
Notation "m ;;; k" := (bind m (fun _ => k))
  (at level 100, right associativity).

Definition lift {A} (o : outcome A) : M A := fun _ st => (o, st).
Definition raise {A} (x : exn) : M A := lift (Raise x).

(** [sys.exit(msg)]. *)
Definition sys_exit {A} (msg : string) : M A := lift (SysExit msg).

Definition ask : M env := fun e st => (Ret e, st).

Definition record (ev : event) : M unit :=
  fun _ st => (Ret tt, {| stdout := stdout st; log := log st ++ [ev] |}).

(** [try: m except ...: handler]: [handler x] is [Some h] for the
    exceptions the clause names.  [SystemExit] is not among them. *)
Definition try_except {A} (m : M A) (handler : exn -> option (M A)) : M A :=
  fun e st =>
    match m e st with
    | (Raise x, st') =>
        match handler x with
        | Some h => h e st'
        | None => (Raise x, st')
        end
    | other => other
    end.

(** [print(text, end=ending)] on a standard output that can write the
    text: the stream is taken to encode every character it is given (a
    UTF-8 terminal and no lone surrogate in the text). *)
Definition print (text ending : string) : M unit :=
  fun _ st =>
    (Ret tt, {| stdout := stdout st +:+ text +:+ ending; log := log st |}).

(** [style.change_color(c)]. *)
Definition change_color (c : string) : M unit :=
  e <- ask ;; print (change_color_text (style e) c) "".

(** [config = ConfigParser(); config.read(name)]: the parser after the
    read. *)
Definition config_read (name : string) : M PyConfig.parser :=
  record (ReadFile name) ;;;
  e <- ask ;;
  match secrets_ini e with
  | NoFile => ret PyConfig.empty
  | Unparsable => raise ConfigParserError
  | Undecodable => raise UnicodeDecodeError
  | IniFile content => ret content
  end.

(** [config[key]]: the proxy of a section that is there, or of
    [[DEFAULT]]. *)
Definition config_getitem (config : PyConfig.parser) (key : string)
    : M PyConfig.proxy :=
  if negb (String.eqb key "DEFAULT") &&
     negb (bool_decide (is_Some (PyConfig.sections config !! key)))
  then raise (KeyError (VStr key))
  else ret {| PyConfig.proxy_parser := config; PyConfig.proxy_name := key |}.

(** [section[key]]: the option of the section or of [[DEFAULT]], its value
    interpolated. *)
Definition section_getitem (section : PyConfig.proxy) (key : string) : M string :=
  if negb (PyConfig.has_option (PyConfig.proxy_parser section)
             (PyConfig.proxy_name section) (PyStr.lower key))
  then raise (KeyError (VStr key))
  else lift (PyConfig.get (PyConfig.proxy_parser section)
               (PyConfig.proxy_name section) (PyStr.lower key)).

(** [request.urlopen(url)]: the call is recorded, and it returns the
    response or raises what the opener raises for this URL ([HTTPError],
    [URLError], [ValueError], ...), whether or not a request went out. *)
Definition urlopen (url : string) : M string :=
  record (HttpGet url) ;;;
  e <- ask ;;
  match network e url with
  | Response body => ret body
  | Failure x => raise x
  end.

(** [response.read()]. *)
Definition response_read (response : string) : M string :=
  record ReadBody ;;; ret response.

(** [json.loads(data)]. *)
Definition json_loads (data : string) : M value :=
  record (JsonLoads data) ;;;
  e <- ask ;;
  lift (PyJson.loads (json_decoder e) data).

(** ** The program *)

(** weather.py, line 9. *)
Definition BASE_WEATHER_API_URL : string :=
  "http://api.openweathermap.org/data/2.5/weather".

(** What [read_user_cli_args] returns: [argparse] makes [city] a list of
    one or more tokens and [imperial] a flag. *)
Record Namespace : Type := {
  city : list string;
  imperial : bool
}.

(** weather.py, lines 75-87: the key is read from section [openweather] of
    [secrets.ini] on every call. *)
Definition _get_api_key : M string :=
  config <- config_read "secrets.ini" ;;
  section <- config_getitem config "openweather" ;;
  section_getitem section "api_key".

(** weather.py, lines 31-49. *)
Definition build_weather_query (city_input : list string) (imperial : bool)
    : M string :=
  api_key <- _get_api_key ;;
  let city_name := PyStr.join " " city_input in
  url_encoded_city_name <- lift (Urllib.quote_plus city_name) ;;
  let units := if imperial then "imperial" else "metric" in
  let url :=
    BASE_WEATHER_API_URL +:+ "?q=" +:+ url_encoded_city_name +:+
    "&units=" +:+ units +:+ "&appid=" +:+ api_key in
  ret url.

(** weather.py, lines 51-73: the first [try] covers [urlopen] alone and
    handles [HTTPError]; the second covers [json.loads] and handles
    [JSONDecodeError]. *)
Definition get_weather_data (query_url : string) : M value :=
  response <-
    try_except (urlopen query_url)
      (fun x =>
         match x with
         | HTTPError code =>
             Some
               (if code =? 401 then
                  sys_exit "Access denied. Please check your API key and try again."
                else if code =? 404 then
                  sys_exit "Can't find weather data for this city."
                else
                  sys_exit ("Something went wrong... (" +:+ pretty code +:+ ")"))
         | _ => None
         end) ;;
  data <- response_read response ;;
  try_except (json_loads data)
    (fun x =>
       match x with
       | JSONDecodeError => Some (sys_exit "Couldn't read the server response.")
       | _ => None
       end).

(** weather.py, lines 89-104: the four fields are read first, then the line
    is printed in three parts.  The literal before the unit symbol is, in
    the source file, the two characters U+00C2 U+00B0. *)
Definition print_result (weather_data : value) (imperial : bool) : M unit :=
  city_name <- lift (PyObj.getitem weather_data "name") ;;
  sys <- lift (PyObj.getitem weather_data "sys") ;;
  city_country <- lift (PyObj.getitem sys "country") ;;
  weather <- lift (PyObj.getitem weather_data "weather") ;;
  first <- lift (PyObj.getitem0 weather) ;;
  weather_description <- lift (PyObj.getitem first "description") ;;
  main_part <- lift (PyObj.getitem weather_data "main") ;;
  temperature <- lift (PyObj.getitem main_part "temp") ;;
  e <- ask ;;
  change_color (REVERSE (style e)) ;;;
  change_color (RED (style e)) ;;;
  name_field <- lift (PyObj.format_center city_name (PADDING (style e))) ;;
  print (name_field +:+ ", " +:+ PyObj.format_plain city_country) "" ;;;
  change_color (RESET (style e)) ;;;
  change_color (RED (style e)) ;;;
  capitalized <- lift (PyObj.capitalize weather_description) ;;
  description_field <- lift (PyObj.format_center capitalized (PADDING (style e))) ;;
  print (String (PyStr.chr 9) description_field) " " ;;;
  change_color (RESET (style e)) ;;;
  print ("(" +:+ PyObj.format_plain temperature +:+ "Â°" +:+
         (if imperial then "F" else "C") +:+ ")") (String (PyStr.chr 10) "").

(** The [__main__] block from line 108 on: what the program does once
    [read_user_cli_args] has returned the parsed arguments.  The parsing
    itself is [argparse]'s and is not part of this. *)
Definition main (user_args : Namespace) : M unit :=
  query_url <- build_weather_query (city user_args) (imperial user_args) ;;
  weather_data <- get_weather_data query_url ;;
  print_result weather_data (imperial user_args).

(** The exit status of the process: an uncaught exception and [sys.exit]
    with a message both end it with status 1. *)
Definition exit_status {A} (o : outcome A) : Z :=
  match o with
  | Ret _ => 0
  | Raise _ => 1
  | SysExit _ => 1
  end.

(** ** Concrete worlds for the examples *)

(** The escape character that starts an ANSI control sequence. *)
Definition ESC : string := String (PyStr.chr 27) "".

(** An instance of [style_module]: ANSI control sequences, written to the
    terminal as they are, and columns of 20. *)
Definition ansi_style : style_module := {|
  PADDING := 20;
  REVERSE := ESC +:+ "[;7m";
  RED := ESC +:+ "[1;31m";
  RESET := ESC +:+ "[0m";
  change_color_text := fun c => c
|}.

(** The payload of the specification's example:
    [{"name":"Paris","sys":{"country":"FR"},
      "weather":[{"description":"clear sky"}],"main":{"temp":18.5}}]. *)
Definition paris : value :=
  VDict [("name", VStr "Paris");
         ("sys", VDict [("country", VStr "FR")]);
         ("weather", VList [VDict [("description", VStr "clear sky")]]);
         ("main", VDict [("temp", VFloat 18.5%float)])].

(** A world: a key under [[openweather]], a server that answers every
    request with [reply], and a decoder that raises [JSONDecodeError] on
    every text but [known], which it decodes to [payload]. *)
Definition world (st : style_module) (api_key : string) (reply : http_reply)
    (known : string) (payload : value) : env := {|
  style := st;
  secrets_ini :=
    IniFile {| PyConfig.defaults := ∅;
               PyConfig.sections := {[ "openweather" := {[ "api_key" := api_key ]} ]} |};
  network := fun _ => reply;
  json_decoder :=
    fun text => if String.eqb text known then Ret payload else Raise JSONDecodeError
|}.

(** A JSON text written with ['] for the double quote. *)
Definition json_text (s : string) : string :=
  PyStr.replace_char "'" (PyStr.chr 34) s.

(** The body of the specification's example response. *)
Definition paris_body : string :=
  json_text
    "{'name':'Paris','sys':{'country':'FR'},'weather':[{'description':'clear sky'}],'main':{'temp':18.5}}".

(** The world of the examples: ANSI styles, a key, and a server that answers
    with the Paris payload. *)
Definition demo : env :=
  world ansi_style "0123456789abcdef" (Response paris_body) paris_body paris.

(** The URL built in [demo] for the city Paris in metric units. *)
Definition paris_url : string :=
  "http://api.openweathermap.org/data/2.5/weather?q=Paris&units=metric&appid=0123456789abcdef".

(** ** What the properties are stated with *)

(** The line feed that [print] ends a line with. *)
Definition newline : string := String (PyStr.chr 10) "".

(** Every character of [s] satisfies [P]. *)
Fixpoint all_chars (P : ascii -> bool) (s : string) : bool :=
  match s with
  | EmptyString => true
  | String c s' => P c && all_chars P s'
  end.

(** The characters of a percent-encoded text: the safe ones, [%] and [+]. *)
Definition encoded_char (c : ascii) : bool :=
  Urllib.always_safe c || Ascii.eqb c "%" || Ascii.eqb c "+".

(** The same with the space, which [quote] keeps for [quote_plus]. *)
Definition encoded_or_space (c : ascii) : bool :=
  encoded_char c || Ascii.eqb c " ".

(** The number of places of [s] where [sub] starts. *)
Fixpoint occurrences (sub s : string) : nat :=
  (if PyStr.startswith s sub then 1 else 0) +
  match s with
  | EmptyString => 0
  | String _ s' => occurrences sub s'
  end.

(** What follows the first [c] in [s]. *)
Fixpoint after_char (c : ascii) (s : string) : option string :=
  match s with
  | EmptyString => None
  | String d s' => if Ascii.eqb d c then Some s' else after_char c s'
  end.

(** [s.split(sep)] for a one-character [sep]. *)
Fixpoint split (sep : ascii) (s : string) : list string :=
  match s with
  | EmptyString => [EmptyString]
  | String c s' =>
      if Ascii.eqb c sep then EmptyString :: split sep s'
      else
        match split sep s' with
        | h :: t => String c h :: t
        | [] => [String c EmptyString]
        end
  end.

(** [s[n:]]. *)
Fixpoint drop_chars (n : nat) (s : string) : string :=
  match n, s with
  | S n', String _ s' => drop_chars n' s'
  | _, _ => s
  end.

(** The value of the first of [params] that reads [name=value]. *)
Fixpoint find_param (name : string) (params : list string) : option string :=
  match params with
  | [] => None
  | p :: rest =>
      if PyStr.startswith p (name +:+ "=")
      then Some (drop_chars (String.length name + 1) p)
      else find_param name rest
  end.

(** The value of the first parameter [name] in the query string of [url]:
    the query string is what follows the first [?], its parameters are
    separated by [&]. *)
Definition query_param (name url : string) : option string :=
  match after_char "?" url with
  | Some query => find_param name (split "&" query)
  | None => None
  end.

(** The characters other than [x]. *)
Definition is_not (x : ascii) : ascii -> bool := fun c => negb (Ascii.eqb c x).

(** What a call of [_get_api_key] comes to on the file [f]: the parser
    after the read, section [openweather], its option [api_key]. *)
Definition credential (f : secrets_file) : outcome string :=
  match f with
  | NoFile => Raise (KeyError (VStr "openweather"))
  | Unparsable => Raise ConfigParserError
  | Undecodable => Raise UnicodeDecodeError
  | IniFile content =>
      match PyConfig.sections content !! "openweather" with
      | None => Raise (KeyError (VStr "openweather"))
      | Some _ =>
          if PyConfig.has_option content "openweather" "api_key"
          then PyConfig.get content "openweather" "api_key"
          else Raise (KeyError (VStr "api_key"))
      end
  end.

(** The credential [secrets.ini] yields: the value that the lookup
    [config["openweather"]["api_key"]] returns, when it returns one. *)
Definition stored_api_key (f : secrets_file) : option string :=
  match credential f with
  | Ret key => Some key
  | Raise _ | SysExit _ => None
  end.

(** The state once [secrets.ini] has been read. *)
Definition after_read (st : state) : state :=
  {| stdout := stdout st; log := log st ++ [ReadFile "secrets.ini"] |}.

(** The URL [build_weather_query] puts together. *)
Definition query_url_of (enc : string) (imperial : bool) (key : string) : string :=
  BASE_WEATHER_API_URL +:+ "?q=" +:+ enc +:+ "&units=" +:+
  (if imperial then "imperial" else "metric") +:+ "&appid=" +:+ key.

(** A world whose [secrets.ini] holds [api_key=abc%def] under
    [[openweather]]. *)
Definition percent_key : env :=
  world ansi_style "abc%def" (Response paris_body) paris_body paris.

(** A world whose [secrets.ini] holds [api_key=fallback] under [[DEFAULT]]
    and an empty section [[openweather]]. *)
Definition default_key : env := {|
  style := ansi_style;
  secrets_ini :=
    IniFile {| PyConfig.defaults := {[ "api_key" := "fallback" ]};
               PyConfig.sections := {[ "openweather" := ∅ ]} |};
  network := fun _ => Response paris_body;
  json_decoder := fun _ => Raise JSONDecodeError
|}.

(** A world whose credential carries a parameter of its own. *)
Definition tainted : env :=
  world ansi_style "k&units=imperial" (Response paris_body) paris_body paris.

(** The world [demo] with another terminal, another server and the same
    [secrets.ini]. *)
Definition demo_elsewhere : env := {|
  style := {| PADDING := 0; REVERSE := ""; RED := ""; RESET := "";
              change_color_text := fun _ => "" |};
  secrets_ini := secrets_ini demo;
  network := fun _ => Failure URLError;
  json_decoder := fun _ => Raise DecoderFault
|}.

(** The world [demo] with another credential in [secrets.ini]. *)
Definition demo_rekeyed : env :=
  world ansi_style "fedcba9876543210" (Response paris_body) paris_body paris.

(** The state once the GET of [url] has been made. *)
Definition after_get (url : string) (st : state) : state :=
  {| stdout := stdout st; log := (log st ++ [HttpGet url])%list |}.

(** A server that answers every request with the status [code]. *)
Definition refusing (code : Z) : env :=
  world ansi_style "0123456789abcdef" (Failure (HTTPError code)) paris_body paris.

(** The state once the body [data] of [url] has been read and handed to
    [json.loads]. *)
Definition after_loads (url data : string) (st : state) : state :=
  {| stdout := stdout st;
     log := (log st ++ [HttpGet url; ReadBody; JsonLoads data])%list |}.

(** A server whose answer is the single byte [0xFF]: no JSON text, and not
    text at all. *)
Definition garbled : env :=
  world ansi_style "0123456789abcdef" (Response (String (PyStr.chr 255) ""))
    paris_body paris.

(** [_get_api_key] ends the program with the exception [x]: it raises [x],
    and [main], which calls it through [build_weather_query] outside any
    [try], ends with [x] uncaught and a non-zero exit status. *)
Definition ends_program (e : env) (st : state) (x : exn) : Prop :=
  fst (_get_api_key e st) = Raise x /\
  forall user_args,
    fst (main user_args e st) = Raise x /\
    exit_status (fst (main user_args e st)) <> 0.

(** The Paris payload without one of its four entries. *)
Definition paris_without (field : string) : value :=
  match paris with
  | VDict items =>
      VDict (filter (fun kv => negb (String.eqb (fst kv) field)) items)
  | other => other
  end.

(** The Paris payload with an empty list of weather conditions. *)
Definition paris_no_condition : value :=
  VDict [("name", VStr "Paris");
         ("sys", VDict [("country", VStr "FR")]);
         ("weather", VList []);
         ("main", VDict [("temp", VFloat 18.5%float)])].

(** A server that answers with [body], decoded to [payload]. *)
Definition serving (body : string) (payload : value) : env :=
  world ansi_style "0123456789abcdef" (Response body) body payload.

(** One lookup after another: the first exception ends the chain. *)
Definition and_then {A B} (o : outcome A) (k : A -> outcome B) : outcome B :=
  match o with
  | Ret a => k a
  | Raise x => Raise x
  | SysExit msg => SysExit msg
  end.

(** [payload["name"]], [payload["sys"]["country"]],
    [payload["weather"][0]["description"]] and [payload["main"]["temp"]]:
    the value of the field, or the exception the lookup raises. *)
Definition field_name (payload : value) : outcome value :=
  PyObj.getitem payload "name".

Definition field_country (payload : value) : outcome value :=
  and_then (PyObj.getitem payload "sys") (fun sys => PyObj.getitem sys "country").

Definition field_description (payload : value) : outcome value :=
  and_then (PyObj.getitem payload "weather") (fun weather =>
  and_then (PyObj.getitem0 weather) (fun first =>
  PyObj.getitem first "description")).

Definition field_temp (payload : value) : outcome value :=
  and_then (PyObj.getitem payload "main") (fun m => PyObj.getitem m "temp").

(** [print_result] as a function of the four fields. *)
Definition print_fields (name country description temp : outcome value)
    (imperial : bool) : M unit :=
  city_name <- lift name ;;
  city_country <- lift country ;;
  weather_description <- lift description ;;
  temperature <- lift temp ;;
  e <- ask ;;
  change_color (REVERSE (style e)) ;;;
  change_color (RED (style e)) ;;;
  name_field <- lift (PyObj.format_center city_name (PADDING (style e))) ;;
  print (name_field +:+ ", " +:+ PyObj.format_plain city_country) "" ;;;
  change_color (RESET (style e)) ;;;
  change_color (RED (style e)) ;;;
  capitalized <- lift (PyObj.capitalize weather_description) ;;
  description_field <- lift (PyObj.format_center capitalized (PADDING (style e))) ;;
  print (String (PyStr.chr 9) description_field) " " ;;;
  change_color (RESET (style e)) ;;;
  print ("(" +:+ PyObj.format_plain temperature +:+ "Â°" +:+
         (if imperial then "F" else "C") +:+ ")") (String (PyStr.chr 10) "").

(** The Paris payload as the server may send it, with more fields. *)
Definition paris_full : value :=
  VDict [("coord", VDict [("lon", VFloat 2.5%float); ("lat", VFloat 48.75%float)]);
         ("weather", VList [VDict [("id", VInt 800); ("main", VStr "Clear");
                                   ("description", VStr "clear sky")];
                            VDict [("description", VStr "mist")]]);
         ("main", VDict [("temp", VFloat 18.5%float); ("humidity", VInt 56)]);
         ("sys", VDict [("country", VStr "FR"); ("sunrise", VInt 1726636384)]);
         ("name", VStr "Paris");
         ("cod", VInt 200)].

(** ** Reading an encoded text back *)

(** One byte of a city as [quote_plus] writes it: [+] for the space, the
    byte itself when it is safe, [%XX] otherwise. *)
Definition plus_quoter (c : ascii) : string :=
  if Ascii.eqb c " " then "+" else Urllib.quoter "" c.

Fixpoint plus_encode (s : string) : string :=
  match s with
  | EmptyString => EmptyString
  | String c s' => plus_quoter c +:+ plus_encode s'
  end.

(** The value of a hexadecimal digit. *)
Definition hex_value (c : ascii) : Z :=
  if PyStr.in_range 48 57 c then PyStr.code c - 48
  else if PyStr.in_range 65 70 c then PyStr.code c - 55
  else PyStr.code c - 87.

(** The bytes an encoded text stands for: [+] is a space and [%XX] the byte
    of code [XX]. *)
Fixpoint percent_decode (s : string) : string :=
  match s with
  | EmptyString => EmptyString
  | String c s1 =>
      if Ascii.eqb c "+" then String " " (percent_decode s1)
      else if Ascii.eqb c "%" then
        match s1 with
        | String a (String b s3) =>
            String (PyStr.chr (16 * hex_value a + hex_value b)) (percent_decode s3)
        | _ => String c (percent_decode s1)
        end
      else String c (percent_decode s1)
  end.

(** The parameters of the query string of [url], in order. *)
Definition query_params (url : string) : option (list string) :=
  match after_char "?" url with
  | Some query => Some (split "&" query)
  | None => None
  end.

(** The messages the program exits with. *)
Definition designed_message (msg : string) : Prop :=
  msg = "Access denied. Please check your API key and try again." \/
  msg = "Can't find weather data for this city." \/
  msg = "Couldn't read the server response." \/
  exists code : Z, msg = "Something went wrong... (" +:+ pretty code +:+ ")".

(** A decoder of JSON text returns or raises; it does not call
    [sys.exit]. *)
Definition decoder_raises_only (e : env) : Prop :=
  forall text msg, json_decoder e text <> SysExit msg.

(** The values [format(v, "^width")] accepts: text and numbers. *)
Definition formattable (v : value) : bool :=
  match v with
  | VStr _ | VInt _ | VBool _ | VFloat _ => true
  | VNone | VList _ | VDict _ => false
  end.

(** The JSON numbers. *)
Definition numeric (v : value) : bool :=
  match v with
  | VInt _ | VFloat _ => true
  | VNone | VBool _ | VStr _ | VList _ | VDict _ => false
  end.

(** A body that is UTF-8 text as it stands: well formed, without a NUL
    byte and without a byte order mark. *)
Definition plain_utf8 (body : string) : bool :=
  PyJson.utf8_ok (PyJson.byte_list body) &&
  forallb (fun b => negb (b =? 0)) (PyJson.byte_list body) &&
  negb (PyJson.starts_with [239; 187; 191] (PyJson.byte_list body)).

(** A payload [print_result] can print: the four fields are there, the name
    is text or a number and the description is text. *)
Definition printable (payload : value) : Prop :=
  exists name country description temp,
    field_name payload = Ret name /\
    formattable name = true /\
    field_country payload = Ret country /\
    field_description payload = Ret (VStr description) /\
    field_temp payload = Ret temp.

(** The Paris payload with a description that is [null]. *)
Definition paris_null_description : value :=
  VDict [("name", VStr "Paris");
         ("sys", VDict [("country", VStr "FR")]);
         ("weather", VList [VDict [("description", VNone)]]);
         ("main", VDict [("temp", VFloat 18.5%float)])].

(** A world without [secrets.ini]. *)
Definition keyless : env := {|
  style := ansi_style;
  secrets_ini := NoFile;
  network := fun _ => Response paris_body;
  json_decoder := fun _ => Ret paris
|}.

(** The lone surrogate U+DCFF, which stands for the byte [0xFF] of a
    command line. *)
Definition surrogate_dcff : string :=
  String (PyStr.chr 237) (String (PyStr.chr 179) (String (PyStr.chr 191) "")).

(** ** Lemmas on text *)

#[local] Arguments append !s1 s2 : simpl nomatch.

Section Text.

Implicit Types s t u : string.

Lemma app_nil_r s : s +:+ "" = s.
Proof. induction s as [|c s IH]; simpl; [reflexivity | now f_equal]. Qed.

Lemma app_assoc s t u : (s +:+ t) +:+ u = s +:+ (t +:+ u).
Proof. induction s as [|c s IH]; simpl; [reflexivity | now f_equal]. Qed.

Lemma startswith_app s t : PyStr.startswith (s +:+ t) s = true.
Proof.
  induction s as [|c s IH]; simpl; [reflexivity |].
  now rewrite Ascii.eqb_refl.
Qed.

Lemma startswith_inv s t : PyStr.startswith t s = true -> exists u, t = s +:+ u.
Proof.
  revert t; induction s as [|c s IH]; intros t H; simpl in *.
  - now exists t.
  - destruct t as [|d t]; [discriminate |].
    apply andb_true_iff in H as [Hc H].
    apply Ascii.eqb_eq in Hc as ->.
    destruct (IH _ H) as [u ->]. now exists u.
Qed.

Lemma contains_prefix s t : PyStr.contains s (s +:+ t) = true.
Proof.
  destruct (s +:+ t) eqn:E; cbn [PyStr.contains];
    rewrite <- E, startswith_app; reflexivity.
Qed.

(** [sub in s] is true exactly when [s] is [pre + sub + post]. *)
Lemma contains_intro pre sub post :
  PyStr.contains sub (pre +:+ sub +:+ post) = true.
Proof.
  induction pre as [|c pre IH]; simpl append.
  - apply contains_prefix.
  - cbn [PyStr.contains]. rewrite IH. apply orb_true_r.
Qed.

Lemma contains_inv sub s :
  PyStr.contains sub s = true -> exists pre post, s = pre +:+ sub +:+ post.
Proof.
  induction s as [|c s IH]; cbn [PyStr.contains]; intros H.
  - rewrite orb_false_r in H. destruct (startswith_inv _ _ H) as [u ->].
    now exists "", u.
  - apply orb_true_iff in H as [H|H].
    + destruct (startswith_inv _ _ H) as [u E]. rewrite E. now exists "", u.
    + destruct (IH H) as (pre & post & ->). now exists (String c pre), post.
Qed.

Lemma endswith_intro pre suffix : PyStr.endswith (pre +:+ suffix) suffix = true.
Proof.
  induction pre as [|c pre IH]; simpl append.
  - destruct suffix; cbn [PyStr.endswith]; now rewrite String.eqb_refl.
  - cbn [PyStr.endswith]. rewrite IH. apply orb_true_r.
Qed.

Lemma endswith_app s t suffix :
  PyStr.endswith t suffix = true -> PyStr.endswith (s +:+ t) suffix = true.
Proof.
  intros H. induction s as [|c s IH]; simpl; [exact H |].
  cbn [PyStr.endswith]. rewrite IH. apply orb_true_r.
Qed.

Lemma endswith_cons (c : ascii) t suffix :
  PyStr.endswith t suffix = true -> PyStr.endswith (String c t) suffix = true.
Proof. intros H. cbn [PyStr.endswith]. rewrite H. apply orb_true_r. Qed.

End Text.

(** ** C1: the line printed for the Paris payload *)

Lemma repr_18_5 : PyFloat.repr 18.5%float = "18.5".
Proof. vm_compute. reflexivity. Qed.

#[local] Arguments PyFloat.repr : simpl never.
#[local] Arguments PyStr.center : simpl never.
#[local] Arguments PyStr.capitalize : simpl never.

Ltac run_program :=
  unfold bind, lift, ask, ret, raise, sys_exit, record, try_except,
    change_color, print; cbn.

Lemma print_result_paris_run (e : env) (st : state) :
  print_result paris false e st =
  (Ret tt,
   {| stdout :=
        stdout st +:+
        (change_color_text (style e) (REVERSE (style e)) +:+
         change_color_text (style e) (RED (style e)) +:+
         PyStr.center "Paris" (PADDING (style e)) +:+ ", FR" +:+
         change_color_text (style e) (RESET (style e)) +:+
         change_color_text (style e) (RED (style e)) +:+
         String (PyStr.chr 9) (PyStr.center "Clear sky" (PADDING (style e))) +:+ " " +:+
         change_color_text (style e) (RESET (style e)) +:+
         "(18.5Â°C)" +:+ newline);
      log := log st |}).
Proof.
  unfold print_result. run_program.
  rewrite repr_18_5. change (PyStr.capitalize "clear sky") with "Clear sky".
  repeat (rewrite ?app_assoc, ?app_nil_r; cbn).
  reflexivity.
Qed.

Lemma center_paris_narrow (p : nat) :
  (p <= 5)%nat -> PyStr.center "Paris" p = "Paris".
Proof.
  intros Hp. unfold PyStr.center. change (PyStr.len "Paris") with 5%nat.
  replace (p - 5)%nat with 0%nat by lia. reflexivity.
Qed.

Lemma center_clear_sky (p : nat) :
  PyStr.center "Clear sky" p =
  PyStr.repeat " " (Nat.div (p - 9) 2) +:+ "Clear sky" +:+
  PyStr.repeat " " (p - 9 - Nat.div (p - 9) 2).
Proof. reflexivity. Qed.

Ltac normalize_text := repeat (rewrite ?app_assoc, ?app_nil_r; cbn).

(** [sub in text], shown by giving what stands before and after [sub]. *)
Ltac found_between pre post :=
  match goal with
  | |- PyStr.contains ?sub ?text = true =>
      replace text with (pre +:+ sub +:+ post);
      [apply contains_intro | normalize_text; reflexivity]
  end.

Ltac ends_after pre :=
  match goal with
  | |- PyStr.endswith ?text ?suffix = true =>
      replace text with (pre +:+ suffix);
      [apply endswith_intro | normalize_text; reflexivity]
  end.

(** C1 (as amended): for the Paris payload and [imperial = false],
    [print_result] returns and the text it writes to standard output
    contains "Paris" centred in a column of [style.PADDING] characters
    followed at once by ", FR", contains "Clear sky", contains "(18.5", and
    ends with "C)" and a line feed. *)
Theorem print_result_paris (e : env) (st : state) :
  exists written,
    print_result paris false e st =
      (Ret tt, {| stdout := stdout st +:+ written; log := log st |}) /\
    PyStr.contains (PyStr.center "Paris" (PADDING (style e)) +:+ ", FR") written = true /\
    PyStr.contains "Clear sky" written = true /\
    PyStr.contains "(18.5" written = true /\
    PyStr.endswith written ("C)" +:+ newline) = true.
Proof.
  pose (cc := change_color_text (style e)).
  pose (p := PADDING (style e)).
  eexists. split; [apply print_result_paris_run |].
  fold cc p. repeat split.
  - found_between
      (cc (REVERSE (style e)) +:+ cc (RED (style e)))
      (cc (RESET (style e)) +:+ cc (RED (style e)) +:+
       String (PyStr.chr 9) (PyStr.center "Clear sky" p) +:+ " " +:+
       cc (RESET (style e)) +:+ "(18.5Â°C)" +:+ newline).
  - rewrite center_clear_sky.
    found_between
      (cc (REVERSE (style e)) +:+ cc (RED (style e)) +:+
       PyStr.center "Paris" p +:+ ", FR" +:+
       cc (RESET (style e)) +:+ cc (RED (style e)) +:+
       String (PyStr.chr 9) (PyStr.repeat " " (Nat.div (p - 9) 2)))
      (PyStr.repeat " " (p - 9 - Nat.div (p - 9) 2) +:+ " " +:+
       cc (RESET (style e)) +:+ "(18.5Â°C)" +:+ newline).
  - found_between
      (cc (REVERSE (style e)) +:+ cc (RED (style e)) +:+
       PyStr.center "Paris" p +:+ ", FR" +:+
       cc (RESET (style e)) +:+ cc (RED (style e)) +:+
       String (PyStr.chr 9) (PyStr.center "Clear sky" p) +:+ " " +:+
       cc (RESET (style e)))
      ("Â°C)" +:+ newline).
  - ends_after
      (cc (REVERSE (style e)) +:+ cc (RED (style e)) +:+
       PyStr.center "Paris" p +:+ ", FR" +:+
       cc (RESET (style e)) +:+ cc (RED (style e)) +:+
       String (PyStr.chr 9) (PyStr.center "Clear sky" p) +:+ " " +:+
       cc (RESET (style e)) +:+ "(18.5Â°").
Qed.

(** C1 (counterexample): with ANSI styles and columns of 20, the text
    printed for the Paris payload holds neither "Paris, FR" nor
    "(18.5°C)". *)
Lemma print_result_paris_not_verbatim :
  PyStr.contains "Paris, FR"
    (stdout (snd (print_result paris false demo initial))) = false /\
  PyStr.contains "(18.5°C)"
    (stdout (snd (print_result paris false demo initial))) = false.
Proof. split; vm_compute; reflexivity. Qed.

(** ** Reading a URL back *)

Section Encoding.

Implicit Types s t u : string.

Lemma all_chars_app P s t :
  all_chars P (s +:+ t) = all_chars P s && all_chars P t.
Proof.
  induction s as [|c s IH]; simpl; [reflexivity |].
  now rewrite IH, andb_assoc.
Qed.

Lemma all_chars_weaken (P Q : ascii -> bool) s :
  (forall c, P c = true -> Q c = true) ->
  all_chars P s = true -> all_chars Q s = true.
Proof.
  intros HPQ. induction s as [|c s IH]; simpl; [reflexivity |].
  intros [Hc Hs]%andb_true_iff. rewrite (HPQ _ Hc). now apply IH.
Qed.

Lemma quoter_plain (c : ascii) : all_chars encoded_char (Urllib.quoter "" c) = true.
Proof. destruct c as [[] [] [] [] [] [] [] []]; vm_compute; reflexivity. Qed.

Lemma quoter_space (c : ascii) :
  all_chars encoded_or_space (Urllib.quoter " " c) = true.
Proof. destruct c as [[] [] [] [] [] [] [] []]; vm_compute; reflexivity. Qed.

Lemma quote_from_bytes_plain s :
  all_chars encoded_char (Urllib.quote_from_bytes s "") = true.
Proof.
  induction s as [|c s IH]; simpl; [reflexivity |].
  now rewrite all_chars_app, quoter_plain, IH.
Qed.

Lemma quote_from_bytes_space s :
  all_chars encoded_or_space (Urllib.quote_from_bytes s " ") = true.
Proof.
  induction s as [|c s IH]; simpl; [reflexivity |].
  now rewrite all_chars_app, quoter_space, IH.
Qed.

Lemma replace_space_plus s :
  all_chars encoded_or_space s = true ->
  all_chars encoded_char (PyStr.replace_char " " "+" s) = true.
Proof.
  induction s as [|c s IH]; simpl; [reflexivity |].
  intros [Hc Hs]%andb_true_iff. rewrite (IH Hs), andb_true_r.
  destruct (Ascii.eqb_spec c " ") as [->|Hne]; [reflexivity |].
  unfold encoded_or_space in Hc. apply orb_true_iff in Hc as [Hc|Hc]; [exact Hc |].
  apply Ascii.eqb_eq in Hc. contradiction.
Qed.

(** [quote_plus] returns on every text without a surrogate, and what it
    returns is made of encoded characters only. *)
Lemma quote_plus_returns s :
  PyStr.has_surrogate s = false ->
  exists enc, Urllib.quote_plus s = Ret enc /\ all_chars encoded_char enc = true.
Proof.
  intros Hs. unfold Urllib.quote_plus, Urllib.quote. rewrite Hs.
  destruct (negb (PyStr.contains " " s)); eexists; split; try reflexivity.
  - apply quote_from_bytes_plain.
  - apply replace_space_plus, quote_from_bytes_space.
Qed.

Lemma quote_plus_chars s enc :
  Urllib.quote_plus s = Ret enc -> all_chars encoded_char enc = true.
Proof.
  unfold Urllib.quote_plus, Urllib.quote.
  destruct (PyStr.has_surrogate s);
    destruct (negb (PyStr.contains " " s)); try discriminate;
    intros [= <-].
  - apply quote_from_bytes_plain.
  - apply replace_space_plus, quote_from_bytes_space.
Qed.

End Encoding.

Section Patterns.

Implicit Types s t u w e rest : string.

Lemma encoded_is_not (x : ascii) s :
  encoded_char x = false ->
  all_chars encoded_char s = true -> all_chars (is_not x) s = true.
Proof.
  intros Hx. apply all_chars_weaken. intros c Hc. unfold is_not.
  destruct (Ascii.eqb_spec c x) as [->|]; [congruence | reflexivity].
Qed.

(** A pattern [w + b + t] cannot start inside [e] when [b] is not in [e]
    and [e] is followed by a character [a] that is neither [b] nor in
    [w]. *)
Lemma startswith_blocked (a b : ascii) w t e rest :
  all_chars (is_not b) e = true ->
  all_chars (is_not a) w = true ->
  a <> b ->
  PyStr.startswith (e +:+ String a rest) (w +:+ String b t) = false.
Proof.
  intros He Hw Hab. revert e He.
  induction w as [|x w IH]; intros e He; simpl.
  - destruct e as [|c e]; simpl in *.
    + apply andb_false_intro1. now apply Ascii.eqb_neq.
    + apply andb_true_iff in He as [Hc _]. unfold is_not in Hc.
      apply negb_true_iff in Hc. rewrite Ascii.eqb_sym, Hc. reflexivity.
  - simpl in Hw. apply andb_true_iff in Hw as [Hx Hw].
    destruct e as [|c e]; simpl in *.
    + unfold is_not in Hx. apply negb_true_iff in Hx. now rewrite Hx.
    + apply andb_true_iff in He as [_ He].
      rewrite (IH Hw e He). apply andb_false_r.
Qed.

Lemma all_chars_tail P (c : ascii) s :
  all_chars P (String c s) = true -> all_chars P s = true.
Proof. simpl. now intros [_ H]%andb_true_iff. Qed.

Lemma contains_skip (a b : ascii) w t e rest :
  all_chars (is_not b) e = true ->
  all_chars (is_not a) w = true ->
  a <> b ->
  PyStr.contains (w +:+ String b t) (e +:+ String a rest) =
  PyStr.contains (w +:+ String b t) (String a rest).
Proof.
  intros He Hw Hab. induction e as [|c e IH]; [reflexivity |].
  change (String c e +:+ String a rest) with (String c (e +:+ String a rest)).
  cbn [PyStr.contains].
  change (String c (e +:+ String a rest)) with (String c e +:+ String a rest).
  rewrite (startswith_blocked a b w t (String c e) rest He Hw Hab).
  rewrite (IH (all_chars_tail _ _ _ He)). reflexivity.
Qed.

Lemma occurrences_skip (a b : ascii) w t e rest :
  all_chars (is_not b) e = true ->
  all_chars (is_not a) w = true ->
  a <> b ->
  occurrences (w +:+ String b t) (e +:+ String a rest) =
  occurrences (w +:+ String b t) (String a rest).
Proof.
  intros He Hw Hab. induction e as [|c e IH]; [reflexivity |].
  change (String c e +:+ String a rest) with (String c (e +:+ String a rest)).
  cbn [occurrences].
  change (String c (e +:+ String a rest)) with (String c e +:+ String a rest).
  rewrite (startswith_blocked a b w t (String c e) rest He Hw Hab).
  rewrite (IH (all_chars_tail _ _ _ He)). reflexivity.
Qed.

(** A pattern cannot start in a text that lacks its first character. *)
Lemma contains_past (b : ascii) t s rest :
  all_chars (is_not b) s = true ->
  PyStr.contains (String b t) (s +:+ rest) = PyStr.contains (String b t) rest.
Proof.
  induction s as [|c s IH]; [reflexivity |]. intros Hs.
  change (String c s +:+ rest) with (String c (s +:+ rest)).
  cbn [PyStr.contains PyStr.startswith].
  simpl in Hs. apply andb_true_iff in Hs as [Hc Hs]. unfold is_not in Hc.
  apply negb_true_iff in Hc. rewrite Ascii.eqb_sym, Hc. simpl.
  now apply IH.
Qed.

Lemma occurrences_past (b : ascii) t s rest :
  all_chars (is_not b) s = true ->
  occurrences (String b t) (s +:+ rest) = occurrences (String b t) rest.
Proof.
  induction s as [|c s IH]; [reflexivity |]. intros Hs.
  change (String c s +:+ rest) with (String c (s +:+ rest)).
  cbn [occurrences PyStr.startswith].
  simpl in Hs. apply andb_true_iff in Hs as [Hc Hs]. unfold is_not in Hc.
  apply negb_true_iff in Hc. rewrite Ascii.eqb_sym, Hc. simpl.
  now apply IH.
Qed.

Lemma startswith_shorter s t u :
  PyStr.startswith s (t +:+ u) = true -> PyStr.startswith s t = true.
Proof.
  revert s. induction t as [|c t IH]; intros s; simpl; [reflexivity |].
  destruct s as [|d s]; [discriminate |].
  intros [Hc H]%andb_true_iff. rewrite Hc. simpl. now apply IH.
Qed.

(** A text without [t] is without every pattern that begins with [t]. *)
Lemma contains_longer s t u :
  PyStr.contains t s = false -> PyStr.contains (t +:+ u) s = false.
Proof.
  induction s as [|c s IH]; cbn [PyStr.contains].
  - rewrite !orb_false_r. intros H.
    destruct (PyStr.startswith "" (t +:+ u)) eqn:E; [| reflexivity].
    now rewrite (startswith_shorter _ _ _ E) in H.
  - intros [H1 H2]%orb_false_iff. rewrite (IH H2), orb_false_r.
    destruct (PyStr.startswith (String c s) (t +:+ u)) eqn:E; [| reflexivity].
    now rewrite (startswith_shorter _ _ _ E) in H1.
Qed.

Lemma contains_no_occurrence t s :
  PyStr.contains t s = false -> occurrences t s = 0%nat.
Proof.
  induction s as [|c s IH]; cbn [PyStr.contains occurrences].
  - rewrite orb_false_r. now intros ->.
  - intros [-> H2]%orb_false_iff. now rewrite (IH H2).
Qed.

Lemma contains_char_absent (x : ascii) s :
  all_chars (is_not x) s = true -> PyStr.contains (String x "") s = false.
Proof.
  induction s as [|c s IH]; [reflexivity |]. simpl.
  intros [Hc Hs]%andb_true_iff. rewrite (IH Hs), orb_false_r, andb_true_r.
  unfold is_not in Hc. apply negb_true_iff in Hc. now rewrite Ascii.eqb_sym.
Qed.

End Patterns.

(** ** The credential and the request URL *)

Section Configuration.

Lemma scan_no_exit (nested : string -> outcome string)
    (map : string -> option string) (fuel : nat) (rest msg : string) :
  (forall v m, nested v <> SysExit m) ->
  PyConfig.scan nested map fuel rest <> SysExit msg.
Proof.
  intros Hnested. revert rest msg.
  induction fuel as [|fuel IH]; intros rest msg; [now destruct rest |].
  destruct rest as [|c rest1]; [discriminate |]. cbn [PyConfig.scan].
  destruct (negb (Ascii.eqb c "%")).
  - specialize (IH rest1). destruct (PyConfig.scan nested map fuel rest1);
      [discriminate | discriminate | intros [= <-]; now apply (IH msg0)].
  - destruct rest1 as [|d rest2]; [discriminate |].
    destruct (Ascii.eqb_spec d "%") as [->|Hd];
      [| destruct (Ascii.eqb_spec d "(") as [->|Hp]].
    + specialize (IH rest2). destruct (PyConfig.scan nested map fuel rest2);
        [discriminate | discriminate | intros [= <-]; now apply (IH msg0)].
    + destruct (PyConfig.reference rest2) as [[name after]|]; [| discriminate].
      destruct (map (PyStr.lower name)) as [v|]; [| discriminate].
      assert (Hhead : forall m,
                (if PyStr.contains "%" v then nested v else Ret v) <> SysExit m)
        by (intros m; destruct (PyStr.contains "%" v); [apply Hnested | discriminate]).
      destruct (if PyStr.contains "%" v then nested v else Ret v) as [head|x|m];
        [| discriminate | now destruct (Hhead m)].
      specialize (IH after). destruct (PyConfig.scan nested map fuel after);
        [discriminate | discriminate | intros [= <-]; now apply (IH msg0)].
    + destruct d as [[] [] [] [] [] [] [] []]; try discriminate;
        first [now destruct Hd | now destruct Hp].
Qed.

Lemma interpolate_no_exit (depth : nat) (map : string -> option string)
    (rest msg : string) :
  PyConfig.interpolate_some depth map rest <> SysExit msg.
Proof.
  revert rest msg. induction depth as [|depth IH]; intros rest msg; [discriminate |].
  cbn [PyConfig.interpolate_some]. apply scan_no_exit. intros v m. apply IH.
Qed.

Lemma get_no_exit (p : PyConfig.parser) (name opt msg : string) :
  PyConfig.get p name opt <> SysExit msg.
Proof.
  unfold PyConfig.get. destruct (PyConfig.unify_values p name opt); [| discriminate].
  apply interpolate_no_exit.
Qed.

Lemma scan_plain (nested : string -> outcome string)
    (map : string -> option string) (fuel : nat) (rest : string) :
  PyStr.contains "%" rest = false ->
  (String.length rest <= fuel)%nat ->
  PyConfig.scan nested map fuel rest = Ret rest.
Proof.
  revert fuel. induction rest as [|c rest IH]; intros fuel Hrest Hfuel;
    [now destruct fuel |].
  destruct fuel as [|fuel]; [simpl in Hfuel; lia |].
  cbn [PyStr.contains PyStr.startswith] in Hrest. rewrite andb_true_r in Hrest.
  apply orb_false_iff in Hrest as [Hc Hrest].
  cbn [PyConfig.scan]. rewrite Ascii.eqb_sym, Hc. cbn [negb].
  rewrite (IH fuel Hrest); [reflexivity | simpl in Hfuel; lia].
Qed.

(** A value without a percent sign is returned as it is stored. *)
Lemma get_plain (p : PyConfig.parser) (name opt value : string) :
  PyConfig.unify_values p name opt = Some value ->
  PyStr.contains "%" value = false ->
  PyConfig.get p name opt = Ret value.
Proof.
  intros Hvalue Hplain. unfold PyConfig.get. rewrite Hvalue.
  cbn [PyConfig.interpolate_some]. now apply scan_plain.
Qed.

End Configuration.

Lemma get_api_key_run (e : env) (st : state) :
  _get_api_key e st = (credential (secrets_ini e), after_read st).
Proof.
  unfold _get_api_key, config_read, config_getitem, section_getitem, credential,
    bind, record, ask, ret, raise, lift.
  change (PyStr.lower "api_key") with "api_key".
  destruct (secrets_ini e) as [| | |content]; try reflexivity.
  cbn -[PyConfig.has_option PyConfig.get].
  destruct (PyConfig.sections content !! "openweather") as [section|] eqn:Hs;
    cbn -[PyConfig.has_option PyConfig.get]; [| reflexivity].
  destruct (PyConfig.has_option content "openweather" "api_key");
    cbn -[PyConfig.get]; [| reflexivity].
  now destruct (PyConfig.get content "openweather" "api_key").
Qed.

Lemma credential_no_exit (f : secrets_file) (msg : string) :
  credential f <> SysExit msg.
Proof.
  unfold credential. destruct f as [| | |content]; try discriminate.
  destruct (PyConfig.sections content !! "openweather"); [| discriminate].
  destruct (PyConfig.has_option content "openweather" "api_key"); [| discriminate].
  apply get_no_exit.
Qed.

Lemma get_api_key_stored (e : env) (st : state) (key : string) :
  stored_api_key (secrets_ini e) = Some key ->
  _get_api_key e st = (Ret key, after_read st).
Proof.
  unfold stored_api_key. rewrite get_api_key_run.
  destruct (credential (secrets_ini e)); try discriminate. now intros [= ->].
Qed.

Lemma get_api_key_missing (e : env) (st : state) :
  stored_api_key (secrets_ini e) = None ->
  exists x, _get_api_key e st = (Raise x, after_read st).
Proof.
  unfold stored_api_key. rewrite get_api_key_run.
  destruct (credential (secrets_ini e)) as [key|x|msg] eqn:Hc; try discriminate.
  - eauto.
  - now apply credential_no_exit in Hc.
Qed.

Lemma build_weather_query_run (e : env) (st : state)
    (city_input : list string) (imperial : bool) (key enc : string) :
  stored_api_key (secrets_ini e) = Some key ->
  Urllib.quote_plus (PyStr.join " " city_input) = Ret enc ->
  build_weather_query city_input imperial e st =
    (Ret (query_url_of enc imperial key), after_read st).
Proof.
  intros Hkey Henc. unfold build_weather_query, bind at 1.
  rewrite (get_api_key_stored e st key Hkey).
  unfold bind, lift, ret. rewrite Henc. reflexivity.
Qed.

Lemma url_split (enc units key : string) :
  BASE_WEATHER_API_URL +:+ "?q=" +:+ enc +:+ "&units=" +:+ units +:+
    "&appid=" +:+ key =
  (BASE_WEATHER_API_URL +:+ "?q=") +:+
    (enc +:+ String "&" ("units=" +:+ units +:+ "&appid=" +:+ key)).
Proof. now rewrite app_assoc. Qed.

(** A pattern [units=...] starts neither in the endpoint nor in the encoded
    city. *)
Lemma contains_units_in_url (tok enc units key : string) :
  all_chars encoded_char enc = true ->
  PyStr.contains ("units=" +:+ tok)
    (BASE_WEATHER_API_URL +:+ "?q=" +:+ enc +:+ "&units=" +:+ units +:+
       "&appid=" +:+ key) =
  PyStr.contains ("units=" +:+ tok)
    ("&units=" +:+ units +:+ "&appid=" +:+ key).
Proof.
  intros Henc. rewrite url_split.
  change ("units=" +:+ tok) with (String "u" ("nits=" +:+ tok)).
  rewrite contains_past by reflexivity.
  change (String "u" ("nits=" +:+ tok)) with ("units" +:+ String "=" tok).
  rewrite (contains_skip "&" "=" "units" tok enc); try reflexivity.
  - now apply encoded_is_not.
  - discriminate.
Qed.

Lemma occurrences_units_in_url (enc units key : string) :
  all_chars encoded_char enc = true ->
  occurrences "units="
    (BASE_WEATHER_API_URL +:+ "?q=" +:+ enc +:+ "&units=" +:+ units +:+
       "&appid=" +:+ key) =
  occurrences "units=" ("&units=" +:+ units +:+ "&appid=" +:+ key).
Proof.
  intros Henc. rewrite url_split.
  rewrite occurrences_past by reflexivity.
  change "units=" with ("units" +:+ String "=" "").
  rewrite (occurrences_skip "&" "=" "units" "" enc); try reflexivity.
  - now apply encoded_is_not.
  - discriminate.
Qed.

Lemma url_units (enc key : string) (imperial : bool) :
  all_chars encoded_char enc = true ->
  PyStr.contains "units=" key = false ->
  PyStr.contains "units=imperial" (query_url_of enc imperial key) = imperial /\
  PyStr.contains "units=metric" (query_url_of enc imperial key) = negb imperial /\
  occurrences "units=" (query_url_of enc imperial key) = 1%nat.
Proof.
  intros Henc Hkey. unfold query_url_of.
  pose proof (contains_longer key "units=" "imperial" Hkey) as Hi.
  pose proof (contains_longer key "units=" "metric" Hkey) as Hm.
  pose proof (contains_no_occurrence _ _ Hkey) as Ho.
  repeat split.
  - rewrite (contains_units_in_url "imperial") by assumption.
    destruct imperial; cbn; [reflexivity | exact Hi].
  - rewrite (contains_units_in_url "metric") by assumption.
    destruct imperial; cbn; [exact Hm | reflexivity].
  - rewrite occurrences_units_in_url by assumption.
    destruct imperial; cbn; now rewrite Ho.
Qed.

(** C3 (as amended): when [secrets.ini] holds a credential that does not
    itself contain the text "units=", then for every list of city tokens
    (free of surrogates, so that it can be encoded) and every flag,
    [build_weather_query] returns a URL made of the endpoint, [?] and a
    query string; the query string contains the percent-encoded space-joined
    city, in which no space is left; the URL contains "units=imperial"
    exactly when the flag is true and "units=metric" exactly when it is
    false, and "units=" occurs in it once. *)
Theorem build_weather_query_units (e : env) (st : state)
    (city_input : list string) (imperial : bool) (key : string) :
  stored_api_key (secrets_ini e) = Some key ->
  PyStr.contains "units=" key = false ->
  PyStr.has_surrogate (PyStr.join " " city_input) = false ->
  exists enc query url,
    Urllib.quote_plus (PyStr.join " " city_input) = Ret enc /\
    fst (build_weather_query city_input imperial e st) = Ret url /\
    url = BASE_WEATHER_API_URL +:+ "?" +:+ query /\
    PyStr.contains enc query = true /\
    PyStr.contains " " enc = false /\
    PyStr.contains "units=imperial" url = imperial /\
    PyStr.contains "units=metric" url = negb imperial /\
    occurrences "units=" url = 1%nat.
Proof.
  intros Hkey Hclean Hcity.
  destruct (quote_plus_returns _ Hcity) as (enc & Henc & Hchars).
  exists enc,
    ("q=" +:+ enc +:+ "&units=" +:+
     (if imperial then "imperial" else "metric") +:+ "&appid=" +:+ key),
    (query_url_of enc imperial key).
  rewrite (build_weather_query_run e st city_input imperial key enc Hkey Henc).
  destruct (url_units enc key imperial Hchars Hclean) as (Hi & Hm & Ho).
  repeat split; try assumption.
  - apply (contains_intro "q=").
  - apply contains_char_absent. now apply encoded_is_not.
Qed.

Lemma build_weather_query_units_witness :
  exists enc query url,
    Urllib.quote_plus (PyStr.join " " ["New"; "York"]) = Ret enc /\
    fst (build_weather_query ["New"; "York"] true demo initial) = Ret url /\
    url = BASE_WEATHER_API_URL +:+ "?" +:+ query /\
    PyStr.contains enc query = true /\
    PyStr.contains " " enc = false /\
    PyStr.contains "units=imperial" url = true /\
    PyStr.contains "units=metric" url = negb true /\
    occurrences "units=" url = 1%nat.
Proof.
  apply (build_weather_query_units demo initial ["New"; "York"] true
           "0123456789abcdef"); vm_compute; reflexivity.
Defined.

(** C3 (counterexample): with the credential "k&units=imperial" and the
    flag false, the URL contains both "units=metric" and
    "units=imperial". *)
Lemma build_weather_query_both_units :
  exists url,
    fst (build_weather_query ["Paris"] false tainted initial) = Ret url /\
    PyStr.contains "units=metric" url = true /\
    PyStr.contains "units=imperial" url = true.
Proof. eexists. repeat split; vm_compute; reflexivity. Qed.

(** ** C7: the units asked for and the symbol printed *)

Lemma split_skip (sep : ascii) (a b : string) :
  all_chars (is_not sep) a = true ->
  split sep (a +:+ String sep b) = a :: split sep b.
Proof.
  induction a as [|c a IH]; simpl.
  - now rewrite Ascii.eqb_refl.
  - intros [Hc Ha]%andb_true_iff. unfold is_not in Hc.
    apply negb_true_iff in Hc. rewrite Hc, (IH Ha). reflexivity.
Qed.

Lemma query_param_units (enc key : string) (imperial : bool) :
  all_chars encoded_char enc = true ->
  query_param "units" (query_url_of enc imperial key) =
  Some (if imperial then "imperial" else "metric").
Proof.
  intros Henc. unfold query_param, query_url_of.
  change (after_char "?" (BASE_WEATHER_API_URL +:+ "?q=" +:+ enc +:+ "&units=" +:+
            (if imperial then "imperial" else "metric") +:+ "&appid=" +:+ key))
    with (Some ("q=" +:+ enc +:+ "&units=" +:+
            (if imperial then "imperial" else "metric") +:+ "&appid=" +:+ key)).
  replace ("q=" +:+ enc +:+ "&units=" +:+
            (if imperial then "imperial" else "metric") +:+ "&appid=" +:+ key)
    with (("q=" +:+ enc) +:+ String "&"
            (("units=" +:+ (if imperial then "imperial" else "metric")) +:+
             String "&" ("appid=" +:+ key)))
    by (now rewrite !app_assoc).
  rewrite split_skip.
  2:{ simpl. now apply encoded_is_not. }
  rewrite split_skip by (now destruct imperial).
  now destruct imperial.
Qed.

Ltac step_lift :=
  match goal with
  | H : context [match ?o with Ret _ => _ | Raise _ => _ | SysExit _ => _ end] |- _ =>
      let E := fresh "E" in
      destruct o eqn:E; try discriminate H
  end.

(** When [print_result] returns, the last thing on standard output is the
    symbol of the flag, a closing bracket and a line feed. *)
Lemma print_result_symbol (weather_data : value) (imperial : bool)
    (e : env) (st : state) :
  fst (print_result weather_data imperial e st) = Ret tt ->
  PyStr.endswith (stdout (snd (print_result weather_data imperial e st)))
    ((if imperial then "F" else "C") +:+ ")" +:+ newline) = true.
Proof.
  unfold print_result. run_program. intros H.
  repeat step_lift. cbn.
  clear H. normalize_text.
  repeat
    match goal with
    | |- PyStr.endswith ((if _ then _ else _) +:+ _) _ = true =>
        destruct imperial; reflexivity
    | |- PyStr.endswith (_ +:+ _) _ = true => apply endswith_app
    | |- PyStr.endswith (String _ _) _ = true => apply endswith_cons
    end.
Qed.

Lemma endswith_length (s suffix : string) :
  PyStr.endswith s suffix = true -> (String.length suffix <= String.length s)%nat.
Proof.
  induction s as [|c s IH]; cbn [PyStr.endswith]; intros H.
  - rewrite orb_false_r in H. apply String.eqb_eq in H as <-. reflexivity.
  - apply orb_true_iff in H as [H|H].
    + apply String.eqb_eq in H as <-. reflexivity.
    + specialize (IH H). simpl. lia.
Qed.

(** A text has one ending of a given length. *)
Lemma endswith_first (s r : string) (a b : ascii) :
  PyStr.endswith s (String a r) = true ->
  PyStr.endswith s (String b r) = true -> a = b.
Proof.
  induction s as [|c s IH]; cbn [PyStr.endswith]; [discriminate |].
  intros [Ha|Ha]%orb_true_iff [Hb|Hb]%orb_true_iff.
  - apply String.eqb_eq in Ha, Hb. congruence.
  - apply String.eqb_eq in Ha. injection Ha as -> ->.
    apply endswith_length in Hb. simpl in Hb. lia.
  - apply String.eqb_eq in Hb. injection Hb as -> ->.
    apply endswith_length in Ha. simpl in Ha. lia.
  - now apply IH.
Qed.

Lemma build_weather_query_inv (e : env) (st : state)
    (city_input : list string) (imperial : bool) (url : string) :
  fst (build_weather_query city_input imperial e st) = Ret url ->
  exists key enc,
    stored_api_key (secrets_ini e) = Some key /\
    Urllib.quote_plus (PyStr.join " " city_input) = Ret enc /\
    url = query_url_of enc imperial key.
Proof.
  unfold build_weather_query, bind at 1.
  destruct (stored_api_key (secrets_ini e)) as [key|] eqn:Hkey.
  - rewrite (get_api_key_stored e st key Hkey).
    unfold bind, lift, ret.
    destruct (Urllib.quote_plus (PyStr.join " " city_input)) as [enc| |] eqn:Henc;
      try discriminate.
    intros [= <-]. now exists key, enc.
  - destruct (get_api_key_missing e st Hkey) as [x ->]. discriminate.
Qed.

(** C7: for every flag, when [build_weather_query] returns a URL and
    [print_result] returns, the [units] parameter of the URL and the symbol
    that ends the printed line go together: "imperial" with "F" (and not
    "C") when the flag is true, "metric" with "C" (and not "F") when it is
    false. *)
Theorem units_match_symbol (e1 e2 : env) (st1 st2 : state)
    (city_input : list string) (weather_data : value) (imperial : bool)
    (url : string) :
  fst (build_weather_query city_input imperial e1 st1) = Ret url ->
  fst (print_result weather_data imperial e2 st2) = Ret tt ->
  (imperial = true /\
   query_param "units" url = Some "imperial" /\
   PyStr.endswith (stdout (snd (print_result weather_data imperial e2 st2)))
     ("F)" +:+ newline) = true /\
   PyStr.endswith (stdout (snd (print_result weather_data imperial e2 st2)))
     ("C)" +:+ newline) = false) \/
  (imperial = false /\
   query_param "units" url = Some "metric" /\
   PyStr.endswith (stdout (snd (print_result weather_data imperial e2 st2)))
     ("C)" +:+ newline) = true /\
   PyStr.endswith (stdout (snd (print_result weather_data imperial e2 st2)))
     ("F)" +:+ newline) = false).
Proof.
  intros Hurl Hprint.
  destruct (build_weather_query_inv _ _ _ _ _ Hurl) as (key & enc & _ & Henc & ->).
  pose proof (query_param_units enc key imperial (quote_plus_chars _ _ Henc)) as Hq.
  pose proof (print_result_symbol _ _ _ _ Hprint) as Hsym.
  destruct imperial; [left | right]; repeat split; try assumption.
  - destruct (PyStr.endswith _ ("C)" +:+ newline)) eqn:Hother; [| reflexivity].
    discriminate (endswith_first _ _ _ _ Hother Hsym).
  - destruct (PyStr.endswith _ ("F)" +:+ newline)) eqn:Hother; [| reflexivity].
    discriminate (endswith_first _ _ _ _ Hother Hsym).
Qed.

Lemma units_match_symbol_witness :
  (true = true /\
   query_param "units"
     "http://api.openweathermap.org/data/2.5/weather?q=Paris&units=imperial&appid=0123456789abcdef"
     = Some "imperial" /\
   PyStr.endswith (stdout (snd (print_result paris true demo initial)))
     ("F)" +:+ newline) = true /\
   PyStr.endswith (stdout (snd (print_result paris true demo initial)))
     ("C)" +:+ newline) = false) \/
  (true = false /\
   query_param "units"
     "http://api.openweathermap.org/data/2.5/weather?q=Paris&units=imperial&appid=0123456789abcdef"
     = Some "metric" /\
   PyStr.endswith (stdout (snd (print_result paris true demo initial)))
     ("C)" +:+ newline) = true /\
   PyStr.endswith (stdout (snd (print_result paris true demo initial)))
     ("F)" +:+ newline) = false).
Proof.
  apply (units_match_symbol demo demo initial initial ["Paris"] paris true);
    vm_compute; reflexivity.
Defined.

(** ** C2: what the URL depends on *)

Lemma build_weather_query_effect (e : env) (st : state)
    (city_input : list string) (imperial : bool) :
  snd (build_weather_query city_input imperial e st) = after_read st.
Proof.
  unfold build_weather_query, bind at 1. rewrite get_api_key_run.
  destruct (credential (secrets_ini e)); try reflexivity.
  unfold bind, lift, ret. now destruct (Urllib.quote_plus _).
Qed.

Lemma build_weather_query_result (e1 e2 : env) (st1 st2 : state)
    (city_input : list string) (imperial : bool) :
  secrets_ini e1 = secrets_ini e2 ->
  fst (build_weather_query city_input imperial e1 st1) =
  fst (build_weather_query city_input imperial e2 st2).
Proof.
  intros Hfile.
  unfold build_weather_query, bind at 1 3. rewrite !get_api_key_run, Hfile.
  destruct (credential (secrets_ini e2)); try reflexivity.
  unfold bind, lift, ret. now destruct (Urllib.quote_plus _).
Qed.

(** C2 (as amended): the result of [build_weather_query] is determined by
    its two arguments together with the content of [secrets.ini], which it
    reads on every call: two calls with the same arguments in worlds with
    the same [secrets.ini] give the same URL (or raise the same exception)
    whatever else differs; and a call writes nothing to standard output,
    its one operation on the outside world being that read. *)
Theorem build_weather_query_deterministic (e1 e2 : env) (st1 st2 : state)
    (city_input : list string) (imperial : bool) :
  secrets_ini e1 = secrets_ini e2 ->
  fst (build_weather_query city_input imperial e1 st1) =
    fst (build_weather_query city_input imperial e2 st2) /\
  stdout (snd (build_weather_query city_input imperial e1 st1)) = stdout st1 /\
  log (snd (build_weather_query city_input imperial e1 st1)) =
    (log st1 ++ [ReadFile "secrets.ini"])%list.
Proof.
  intros Hfile. split; [now apply build_weather_query_result |].
  now rewrite build_weather_query_effect.
Qed.

Lemma build_weather_query_deterministic_witness :
  fst (build_weather_query ["Paris"] false demo initial) =
    fst (build_weather_query ["Paris"] false demo_elsewhere
           {| stdout := "earlier output"; log := [ReadBody] |}) /\
  stdout (snd (build_weather_query ["Paris"] false demo initial)) = stdout initial /\
  log (snd (build_weather_query ["Paris"] false demo initial)) =
    (log initial ++ [ReadFile "secrets.ini"])%list.
Proof.
  apply (build_weather_query_deterministic demo demo_elsewhere). reflexivity.
Defined.

(** C2 (counterexample): two calls with the same city and the same flag
    return different URLs when [secrets.ini] differs. *)
Lemma build_weather_query_reads_secrets :
  exists url1 url2,
    fst (build_weather_query ["Paris"] false demo initial) = Ret url1 /\
    fst (build_weather_query ["Paris"] false demo_rekeyed initial) = Ret url2 /\
    String.eqb url1 url2 = false.
Proof. do 2 eexists. repeat split; vm_compute; reflexivity. Qed.

(** ** C4, C5, C6: what [get_weather_data] does with a failure *)

(** [main] has no handler around [get_weather_data]: when that call does not
    return, [main] ends the same way, in the same state, and [print_result]
    is not reached. *)
Lemma main_stops (user_args : Namespace) (e : env) (st0 st st' : state)
    (url : string) (o : outcome value) :
  build_weather_query (city user_args) (imperial user_args) e st0 = (Ret url, st) ->
  get_weather_data url e st = (o, st') ->
  (forall v, o <> Ret v) ->
  main user_args e st0 =
    (match o with
     | Ret _ => Ret tt
     | Raise x => Raise x
     | SysExit msg => SysExit msg
     end, st').
Proof.
  intros Hbuild Hget Hstop. unfold main, bind. rewrite Hbuild, Hget.
  destruct o as [v| |]; [now destruct (Hstop v) | reflexivity ..].
Qed.

(** The exit message for an [HTTPError], whatever the world. *)
Lemma get_weather_data_http_error (e : env) (st : state) (url : string) (code : Z) :
  network e url = Failure (HTTPError code) ->
  get_weather_data url e st =
    (SysExit
       (if code =? 401 then "Access denied. Please check your API key and try again."
        else if code =? 404 then "Can't find weather data for this city."
        else "Something went wrong... (" +:+ pretty code +:+ ")"),
     after_get url st).
Proof.
  intros Hnet. unfold get_weather_data, urlopen. run_program. rewrite Hnet. cbn.
  destruct (code =? 401); [reflexivity |]. now destruct (code =? 404).
Qed.

(** C4: when the GET raises [HTTPError] with status 401, [get_weather_data]
    ends in [sys.exit] with the message "Access denied. Please check your
    API key and try again.", the exit status is not zero, nothing is
    printed, and the GET is the only operation performed: the body is
    neither read nor parsed.  [main], which made the call, ends the same
    way. *)
Theorem get_weather_data_401 (e : env) (st : state) (url : string) :
  network e url = Failure (HTTPError 401) ->
  fst (get_weather_data url e st) =
    SysExit "Access denied. Please check your API key and try again." /\
  exit_status (fst (get_weather_data url e st)) <> 0 /\
  stdout (snd (get_weather_data url e st)) = stdout st /\
  log (snd (get_weather_data url e st)) = (log st ++ [HttpGet url])%list /\
  (forall user_args st0,
     build_weather_query (city user_args) (imperial user_args) e st0 = (Ret url, st) ->
     main user_args e st0 =
       (SysExit "Access denied. Please check your API key and try again.",
        after_get url st)).
Proof.
  intros Hnet.
  pose proof (get_weather_data_http_error e st url 401 Hnet) as Hrun.
  cbn in Hrun. rewrite Hrun. cbn. repeat split; [discriminate |].
  intros user_args st0 Hbuild.
  now rewrite (main_stops user_args e st0 st _ url _ Hbuild Hrun).
Qed.

Lemma get_weather_data_401_witness :
  fst (get_weather_data paris_url (refusing 401) (after_read initial)) =
    SysExit "Access denied. Please check your API key and try again." /\
  exit_status
    (fst (get_weather_data paris_url (refusing 401) (after_read initial))) <> 0 /\
  stdout (snd (get_weather_data paris_url (refusing 401) (after_read initial))) =
    stdout (after_read initial) /\
  log (snd (get_weather_data paris_url (refusing 401) (after_read initial))) =
    (log (after_read initial) ++ [HttpGet paris_url])%list /\
  (forall user_args st0,
     build_weather_query (city user_args) (imperial user_args) (refusing 401) st0 =
       (Ret paris_url, after_read initial) ->
     main user_args (refusing 401) st0 =
       (SysExit "Access denied. Please check your API key and try again.",
        after_get paris_url (after_read initial))).
Proof.
  apply (get_weather_data_401 (refusing 401) (after_read initial) paris_url).
  reflexivity.
Defined.

(** The whole program against a server that answers 401. *)
Lemma main_401 :
  main {| city := ["Paris"]; imperial := false |} (refusing 401) initial =
  (SysExit "Access denied. Please check your API key and try again.",
   {| stdout := ""; log := [ReadFile "secrets.ini"; HttpGet paris_url] |}).
Proof. vm_compute. reflexivity. Qed.

(** C5 (as amended): when the GET raises [HTTPError], [get_weather_data]
    ends in [sys.exit] with a non-zero exit status and a message that the
    status code alone determines (any other call that meets the same code,
    in any world, exits with the same message); for 404 the message is
    "Can't find weather data for this city."; for every code other than 401
    and 404 the message contains the code in decimal. *)
Theorem get_weather_data_status (e : env) (st : state) (url : string) (code : Z) :
  network e url = Failure (HTTPError code) ->
  exists msg,
    fst (get_weather_data url e st) = SysExit msg /\
    exit_status (fst (get_weather_data url e st)) <> 0 /\
    (forall e' st' url',
       network e' url' = Failure (HTTPError code) ->
       fst (get_weather_data url' e' st') = SysExit msg) /\
    (code = 404 -> msg = "Can't find weather data for this city.") /\
    (code <> 401 -> code <> 404 -> PyStr.contains (pretty code) msg = true).
Proof.
  intros Hnet. rewrite (get_weather_data_http_error e st url code Hnet).
  eexists. split; [reflexivity |]. cbn [fst exit_status].
  split; [discriminate |]. split; [| split].
  - intros e' st' url' Hnet'.
    now rewrite (get_weather_data_http_error e' st' url' code Hnet').
  - now intros ->.
  - intros H401 H404.
    apply Z.eqb_neq in H401, H404. rewrite H401, H404.
    apply (contains_intro "Something went wrong... (" (pretty code) ")").
Qed.

Lemma get_weather_data_status_witness :
  exists msg,
    fst (get_weather_data "http://host/q" (refusing 503) initial) = SysExit msg /\
    exit_status (fst (get_weather_data "http://host/q" (refusing 503) initial)) <> 0 /\
    (forall e' st' url',
       network e' url' = Failure (HTTPError 503) ->
       fst (get_weather_data url' e' st') = SysExit msg) /\
    (503 = 404 -> msg = "Can't find weather data for this city.") /\
    (503 <> 401 -> 503 <> 404 -> PyStr.contains (pretty 503) msg = true).
Proof.
  apply (get_weather_data_status (refusing 503) initial "http://host/q" 503).
  reflexivity.
Defined.

(** C5 (counterexample): 401 is a status other than 404, and the message it
    gets does not contain its code. *)
Lemma get_weather_data_status_401 :
  exists msg,
    fst (get_weather_data paris_url (refusing 401) initial) = SysExit msg /\
    PyStr.contains (pretty 401) msg = false.
Proof. eexists. split; vm_compute; reflexivity. Qed.

Lemma get_weather_data_status_503 :
  fst (get_weather_data "http://host/q" (refusing 503) initial) =
  SysExit "Something went wrong... (503)".
Proof. vm_compute. reflexivity. Qed.

(** What [get_weather_data] does with a body, by what [json.loads] makes of
    it. *)
Lemma get_weather_data_body (e : env) (st : state) (url body : string) :
  network e url = Response body ->
  get_weather_data url e st =
    (match PyJson.loads (json_decoder e) body with
     | Raise JSONDecodeError => SysExit "Couldn't read the server response."
     | other => other
     end,
     after_loads url body st).
Proof.
  intros Hnet.
  unfold get_weather_data, urlopen, response_read, json_loads, after_loads.
  run_program. rewrite Hnet. cbn.
  destruct (PyJson.loads (json_decoder e) body) as [v|[]|msg]; cbn;
    rewrite <- ?(assoc_L (++)); reflexivity.
Qed.

(** A body the decoder rejects with [JSONDecodeError] ends the program with
    the message of the source, nothing printed. *)
Lemma get_weather_data_rejected (e : env) (st : state) (url body : string) :
  network e url = Response body ->
  PyJson.loads (json_decoder e) body = Raise JSONDecodeError ->
  fst (get_weather_data url e st) = SysExit "Couldn't read the server response." /\
  stdout (snd (get_weather_data url e st)) = stdout st.
Proof.
  intros Hnet Hloads. rewrite (get_weather_data_body e st url body Hnet), Hloads.
  now split.
Qed.

(** C6 (failing input): on a successful response whose body is the byte
    [0xFF], [get_weather_data] does not exit with "Couldn't read the server
    response.": [json.loads] raises [UnicodeDecodeError], which the
    [except json.JSONDecodeError] clause does not catch. *)
Lemma get_weather_data_undecodable :
  get_weather_data "http://host/q" garbled initial =
  (Raise UnicodeDecodeError,
   {| stdout := "";
      log := [HttpGet "http://host/q"; ReadBody;
              JsonLoads (String (PyStr.chr 255) "")] |}).
Proof. vm_compute. reflexivity. Qed.

(** The same for every decoder of JSON text: the bytes never reach it. *)
Lemma get_weather_data_undecodable_any (e : env) (st : state) (url : string) :
  network e url = Response (String (PyStr.chr 255) "") ->
  fst (get_weather_data url e st) = Raise UnicodeDecodeError.
Proof.
  intros Hnet. now rewrite (get_weather_data_body e st url _ Hnet).
Qed.

(** ** C8: the credential *)

Lemma main_without_key (e : env) (st : state) (x : exn) :
  fst (_get_api_key e st) = Raise x -> ends_program e st x.
Proof.
  intros Hkey. split; [exact Hkey |]. intros user_args.
  unfold main, build_weather_query, bind.
  destruct (_get_api_key e st) as [[key|y|msg] st']; cbn in Hkey; try discriminate.
  injection Hkey as ->. cbn. split; [reflexivity | discriminate].
Qed.

(** C8 (as amended): [_get_api_key] reads [secrets.ini] and prints nothing
    (no prompt).  Without a readable file or without section [openweather]
    it raises [KeyError], and so it does when option [api_key] is neither in
    that section nor in [[DEFAULT]]; a file that cannot be decoded or parsed
    raises the exception of the read.  Nothing catches these: the program
    ends with a non-zero exit status.  When the option is found, in the
    section or else in [[DEFAULT]], and its value holds no percent sign,
    that value is returned. *)
Theorem get_api_key_outcome (e : env) (st : state) :
  stdout (snd (_get_api_key e st)) = stdout st /\
  log (snd (_get_api_key e st)) = (log st ++ [ReadFile "secrets.ini"])%list /\
  match secrets_ini e with
  | NoFile => ends_program e st (KeyError (VStr "openweather"))
  | Unparsable => ends_program e st ConfigParserError
  | Undecodable => ends_program e st UnicodeDecodeError
  | IniFile content =>
      match PyConfig.sections content !! "openweather" with
      | None => ends_program e st (KeyError (VStr "openweather"))
      | Some section =>
          match section !! "api_key", PyConfig.defaults content !! "api_key" with
          | None, None => ends_program e st (KeyError (VStr "api_key"))
          | Some value, _ | None, Some value =>
              PyStr.contains "%" value = false ->
              fst (_get_api_key e st) = Ret value
          end
      end
  end.
Proof.
  pose proof (get_api_key_run e st) as Hrun.
  split; [now rewrite Hrun |]. split; [now rewrite Hrun |].
  unfold credential in Hrun.
  destruct (secrets_ini e) as [| | |content];
    [apply main_without_key; now rewrite Hrun ..|].
  destruct (PyConfig.sections content !! "openweather") as [section|] eqn:Hs;
    [| apply main_without_key; now rewrite Hrun].
  unfold PyConfig.has_option in Hrun.
  change (String.eqb "openweather" "" || String.eqb "openweather" "DEFAULT")
    with false in Hrun.
  cbv iota in Hrun. rewrite Hs in Hrun.
  destruct (section !! "api_key") as [value|] eqn:Hk.
  - intros Hplain. rewrite Hrun.
    rewrite bool_decide_eq_true_2 by eauto. cbn [orb fst].
    apply get_plain; [| exact Hplain].
    unfold PyConfig.unify_values. now rewrite Hs, Hk.
  - destruct (PyConfig.defaults content !! "api_key") as [value|] eqn:Hd.
    + intros Hplain. rewrite Hrun.
      rewrite (bool_decide_eq_true_2 (is_Some (Some value))) by eauto.
      rewrite orb_true_r. cbn [fst].
      apply get_plain; [| exact Hplain].
      unfold PyConfig.unify_values. now rewrite Hs, Hk.
    + apply main_without_key. rewrite Hrun.
      rewrite !bool_decide_eq_false_2 by (intros [? ?]; discriminate).
      reflexivity.
Qed.

Lemma get_api_key_outcome_witness :
  PyStr.contains "%" "0123456789abcdef" = false /\
  fst (_get_api_key demo initial) = Ret "0123456789abcdef".
Proof.
  split; [reflexivity |].
  apply (proj2 (proj2 (get_api_key_outcome demo initial))). reflexivity.
Defined.

(** C8 (counterexample): with file, section and option there, the value
    "abc%def" is not returned: the lookup interpolates it and raises an
    exception of [configparser]; and with the option absent from section
    [openweather], the value that [[DEFAULT]] holds under [api_key] is
    returned as the credential. *)
Lemma get_api_key_not_as_stored :
  fst (_get_api_key percent_key initial) = Raise ConfigParserError /\
  fst (_get_api_key default_key initial) = Ret "fallback".
Proof. split; vm_compute; reflexivity. Qed.

(** ** C9: a payload that lacks a field *)

(** C9: there are JSON payloads on which [print_result] raises an exception
    that nothing handles, rather than exiting with one of the program's
    messages: the Paris payload without "name", without "sys" or without
    "main" raises [KeyError], and with an empty "weather" list
    [IndexError], nothing being printed; and the whole program, served the
    JSON text of the empty object, ends with [KeyError] uncaught. *)
Theorem print_result_trusts_payload :
  (forall e st imperial,
     print_result (paris_without "name") imperial e st =
       (Raise (KeyError (VStr "name")), st)) /\
  (forall e st imperial,
     print_result (paris_without "sys") imperial e st =
       (Raise (KeyError (VStr "sys")), st)) /\
  (forall e st imperial,
     print_result paris_no_condition imperial e st = (Raise IndexError, st)) /\
  (forall e st imperial,
     print_result (paris_without "main") imperial e st =
       (Raise (KeyError (VStr "main")), st)) /\
  fst (main {| city := ["Paris"]; imperial := false |}
         (serving "{}" (VDict [])) initial) =
    Raise (KeyError (VStr "name")) /\
  stdout (snd (main {| city := ["Paris"]; imperial := false |}
                 (serving "{}" (VDict [])) initial)) = "".
Proof.
  repeat split; try (intros e st imp; destruct st; reflexivity);
    vm_compute; reflexivity.
Qed.

(** ** C10: the fields [print_result] reads *)

Lemma print_result_by_fields (payload : value) (imperial : bool)
    (e : env) (st : state) :
  print_result payload imperial e st =
  print_fields (field_name payload) (field_country payload)
    (field_description payload) (field_temp payload) imperial e st.
Proof.
  unfold print_result, print_fields, field_name, field_country,
    field_description, field_temp, and_then, bind, lift.
  destruct (PyObj.getitem payload "name"); try reflexivity.
  destruct (PyObj.getitem payload "sys") as [sys| |]; try reflexivity.
  destruct (PyObj.getitem sys "country"); try reflexivity.
  destruct (PyObj.getitem payload "weather") as [weather| |]; try reflexivity.
  destruct (PyObj.getitem0 weather) as [first| |]; try reflexivity.
  destruct (PyObj.getitem first "description"); try reflexivity.
  destruct (PyObj.getitem payload "main") as [m| |]; try reflexivity.
Qed.

(** C10: [print_result] depends on the payload through the four fields
    [name], [sys.country], [weather[0].description] and [main.temp] only:
    for two payloads that agree on them, whatever else they hold, it ends
    the same way and writes the same text. *)
Theorem print_result_reads_four_fields (payload1 payload2 : value)
    (imperial : bool) (e : env) (st : state) :
  field_name payload1 = field_name payload2 ->
  field_country payload1 = field_country payload2 ->
  field_description payload1 = field_description payload2 ->
  field_temp payload1 = field_temp payload2 ->
  print_result payload1 imperial e st = print_result payload2 imperial e st.
Proof.
  intros Hn Hc Hd Ht.
  rewrite !print_result_by_fields, Hn, Hc, Hd, Ht. reflexivity.
Qed.

Lemma print_result_reads_four_fields_witness :
  print_result paris true demo initial = print_result paris_full true demo initial.
Proof.
  apply (print_result_reads_four_fields paris paris_full true demo initial);
    reflexivity.
Defined.

(** ** More on the request URL *)

Section Quoting.

Implicit Types s t : string.

Lemma replace_char_app (a b : ascii) s t :
  PyStr.replace_char a b (s +:+ t) =
  PyStr.replace_char a b s +:+ PyStr.replace_char a b t.
Proof. induction s as [|c s IH]; simpl; [reflexivity | now rewrite IH]. Qed.

Lemma quoter_no_space (c : ascii) :
  Ascii.eqb c " " = false ->
  PyStr.replace_char " " "+" (Urllib.quoter " " c) = Urllib.quoter "" c.
Proof. destruct c as [[] [] [] [] [] [] [] []]; intros H; try discriminate H; reflexivity. Qed.

Lemma quoter_with_space (c : ascii) :
  PyStr.replace_char " " "+" (Urllib.quoter " " c) = plus_quoter c.
Proof.
  unfold plus_quoter. destruct (Ascii.eqb c " ") eqn:E.
  - apply Ascii.eqb_eq in E as ->. reflexivity.
  - now apply quoter_no_space.
Qed.

Lemma quote_with_space s :
  PyStr.replace_char " " "+" (Urllib.quote_from_bytes s " ") = plus_encode s.
Proof.
  induction s as [|c s IH]; simpl; [reflexivity |].
  now rewrite replace_char_app, quoter_with_space, IH.
Qed.

Lemma quote_without_space s :
  PyStr.contains " " s = false -> Urllib.quote_from_bytes s "" = plus_encode s.
Proof.
  induction s as [|c s IH]; [reflexivity |]. cbn [PyStr.contains PyStr.startswith].
  rewrite andb_true_r. intros [Hc Hs]%orb_false_iff. simpl.
  rewrite (IH Hs). unfold plus_quoter. rewrite Ascii.eqb_sym in Hc. now rewrite Hc.
Qed.

(** Both branches of [quote_plus] write the text byte by byte. *)
Lemma quote_plus_bytewise s :
  PyStr.has_surrogate s = false -> Urllib.quote_plus s = Ret (plus_encode s).
Proof.
  intros Hs. unfold Urllib.quote_plus, Urllib.quote. rewrite Hs.
  destruct (PyStr.contains " " s) eqn:E; cbn [negb].
  - now rewrite quote_with_space.
  - now rewrite quote_without_space.
Qed.

Lemma quote_plus_inv s enc :
  Urllib.quote_plus s = Ret enc ->
  PyStr.has_surrogate s = false /\ enc = plus_encode s.
Proof.
  intros H. destruct (PyStr.has_surrogate s) eqn:Hs.
  - unfold Urllib.quote_plus, Urllib.quote in H. rewrite Hs in H.
    destruct (negb _); discriminate.
  - rewrite (quote_plus_bytewise s Hs) in H. now injection H as <-.
Qed.

Lemma percent_decode_quoter (c : ascii) t :
  percent_decode (plus_quoter c +:+ t) = String c (percent_decode t).
Proof. destruct c as [[] [] [] [] [] [] [] []]; reflexivity. Qed.

Lemma percent_decode_encode s : percent_decode (plus_encode s) = s.
Proof.
  induction s as [|c s IH]; [reflexivity |]. simpl plus_encode.
  now rewrite percent_decode_quoter, IH.
Qed.

End Quoting.

Section UrlShape.

Implicit Types s t : string.

Lemma plus_encode_app s t : plus_encode (s +:+ t) = plus_encode s +:+ plus_encode t.
Proof.
  induction s as [|c s IH]; simpl; [reflexivity |].
  now rewrite IH, app_assoc.
Qed.

Lemma plus_encode_join (tokens : list string) :
  plus_encode (PyStr.join " " tokens) = PyStr.join "+" (map plus_encode tokens).
Proof.
  unfold PyStr.join.
  induction tokens as [|tok [|tok' rest] IH]; [reflexivity | reflexivity |].
  change (String.concat " " (tok :: tok' :: rest))
    with (tok +:+ " " +:+ String.concat " " (tok' :: rest)).
  change (String.concat "+" (map plus_encode (tok :: tok' :: rest)))
    with (plus_encode tok +:+ "+" +:+
          String.concat "+" (map plus_encode (tok' :: rest))).
  now rewrite !plus_encode_app, IH.
Qed.

(** A space between two texts keeps a surrogate from forming across them. *)
Lemma has_surrogate_spaced s t :
  PyStr.has_surrogate (s +:+ String " " t) =
  PyStr.has_surrogate s || PyStr.has_surrogate t.
Proof.
  induction s as [|c s IH].
  - simpl. now destruct t.
  - change (String c s +:+ String " " t) with (String c (s +:+ String " " t)).
    cbn [PyStr.has_surrogate]. rewrite IH.
    destruct s as [|d s]; simpl.
    + now rewrite andb_false_r.
    + now rewrite orb_assoc.
Qed.

Lemma has_surrogate_join (tokens : list string) :
  Forall (fun tok => PyStr.has_surrogate tok = false) tokens ->
  PyStr.has_surrogate (PyStr.join " " tokens) = false.
Proof.
  unfold PyStr.join.
  induction tokens as [|tok [|tok' rest] IH]; intros H.
  - reflexivity.
  - now inversion H.
  - change (String.concat " " (tok :: tok' :: rest))
      with (tok +:+ String " " (String.concat " " (tok' :: rest))).
    rewrite has_surrogate_spaced. inversion H as [|? ? Htok Hrest]; subst.
    now rewrite Htok, (IH Hrest).
Qed.

(** Text free of a character, cut at that character, is cut in one way. *)
Lemma cut_unique (a : ascii) s t r1 r2 :
  all_chars (is_not a) s = true ->
  all_chars (is_not a) t = true ->
  s +:+ String a r1 = t +:+ String a r2 -> s = t /\ r1 = r2.
Proof.
  revert t. induction s as [|c s IH]; intros [|d t] Hs Ht H; simpl in *.
  - now injection H as ->.
  - injection H as <- _. apply andb_true_iff in Ht as [Hd _].
    unfold is_not in Hd. now rewrite Ascii.eqb_refl in Hd.
  - injection H as -> _. apply andb_true_iff in Hs as [Hc _].
    unfold is_not in Hc. now rewrite Ascii.eqb_refl in Hc.
  - injection H as -> H.
    apply andb_true_iff in Hs as [_ Hs]. apply andb_true_iff in Ht as [_ Ht].
    destruct (IH t Hs Ht H) as [-> ->]. now split.
Qed.

Lemma split_whole (sep : ascii) s :
  all_chars (is_not sep) s = true -> split sep s = [s].
Proof.
  induction s as [|c s IH]; [reflexivity |]. simpl.
  intros [Hc Hs]%andb_true_iff. unfold is_not in Hc.
  apply negb_true_iff in Hc. now rewrite Hc, (IH Hs).
Qed.

Lemma contains_char_all (x : ascii) s :
  PyStr.contains (String x "") s = false -> all_chars (is_not x) s = true.
Proof.
  induction s as [|c s IH]; [reflexivity |]. cbn [PyStr.contains PyStr.startswith].
  rewrite andb_true_r. intros [Hc Hs]%orb_false_iff. simpl.
  rewrite (IH Hs), andb_true_r. unfold is_not. now rewrite Ascii.eqb_sym, Hc.
Qed.

Lemma query_params_of_url (enc key : string) (imperial : bool) :
  all_chars encoded_char enc = true ->
  query_params (query_url_of enc imperial key) =
  Some (("q=" +:+ enc) :: ("units=" +:+ (if imperial then "imperial" else "metric"))
        :: split "&" ("appid=" +:+ key)).
Proof.
  intros Henc. unfold query_params, query_url_of.
  change (after_char "?" (BASE_WEATHER_API_URL +:+ "?q=" +:+ enc +:+ "&units=" +:+
            (if imperial then "imperial" else "metric") +:+ "&appid=" +:+ key))
    with (Some ("q=" +:+ enc +:+ "&units=" +:+
            (if imperial then "imperial" else "metric") +:+ "&appid=" +:+ key)).
  replace ("q=" +:+ enc +:+ "&units=" +:+
            (if imperial then "imperial" else "metric") +:+ "&appid=" +:+ key)
    with (("q=" +:+ enc) +:+ String "&"
            (("units=" +:+ (if imperial then "imperial" else "metric")) +:+
             String "&" ("appid=" +:+ key)))
    by (now rewrite !app_assoc).
  rewrite split_skip.
  2:{ simpl. now apply encoded_is_not. }
  rewrite split_skip by (now destruct imperial).
  reflexivity.
Qed.

End UrlShape.

(** X1: whatever the city tokens hold, reserved characters included, the
    query string of the URL that [build_weather_query] returns has the
    parameter [q] with the encoded city first and the parameter [units]
    second, and after them what the credential gives; with a credential
    free of [&] these are the three parameters [q], [units] and [appid]. *)
Theorem build_weather_query_parameters (e : env) (st : state)
    (city_input : list string) (imperial : bool) (url : string) :
  fst (build_weather_query city_input imperial e st) = Ret url ->
  exists enc key,
    Urllib.quote_plus (PyStr.join " " city_input) = Ret enc /\
    stored_api_key (secrets_ini e) = Some key /\
    all_chars encoded_char enc = true /\
    query_params url =
      Some (("q=" +:+ enc) :: ("units=" +:+ (if imperial then "imperial" else "metric"))
            :: split "&" ("appid=" +:+ key)) /\
    (PyStr.contains "&" key = false ->
     query_params url =
       Some [ "q=" +:+ enc;
              "units=" +:+ (if imperial then "imperial" else "metric");
              "appid=" +:+ key ]).
Proof.
  intros Hurl.
  destruct (build_weather_query_inv _ _ _ _ _ Hurl) as (key & enc & Hkey & Henc & ->).
  pose proof (quote_plus_chars _ _ Henc) as Hchars.
  exists enc, key. repeat split; try assumption.
  - now apply query_params_of_url.
  - intros Hclean. rewrite (query_params_of_url enc key imperial Hchars).
    rewrite (split_whole "&" ("appid=" +:+ key)); [reflexivity |].
    simpl. now apply contains_char_all.
Qed.

Lemma build_weather_query_parameters_witness :
  exists enc key,
    Urllib.quote_plus (PyStr.join " " ["Rock&Roll=1"; "?x#"]) = Ret enc /\
    stored_api_key (secrets_ini demo) = Some key /\
    all_chars encoded_char enc = true /\
    query_params
      "http://api.openweathermap.org/data/2.5/weather?q=Rock%26Roll%3D1+%3Fx%23&units=metric&appid=0123456789abcdef" =
      Some (("q=" +:+ enc) :: ("units=" +:+ (if false then "imperial" else "metric"))
            :: split "&" ("appid=" +:+ key)) /\
    (PyStr.contains "&" key = false ->
     query_params
       "http://api.openweathermap.org/data/2.5/weather?q=Rock%26Roll%3D1+%3Fx%23&units=metric&appid=0123456789abcdef" =
       Some [ "q=" +:+ enc;
              "units=" +:+ (if false then "imperial" else "metric");
              "appid=" +:+ key ]).
Proof.
  apply (build_weather_query_parameters demo initial ["Rock&Roll=1"; "?x#"] false).
  vm_compute. reflexivity.
Defined.

(** X2: the URL keeps everything it was built from: when two calls of
    [build_weather_query], in whatever worlds, return the same URL, the
    space-joined city texts are the same, the flags are the same and the
    credentials are the same. *)
Theorem build_weather_query_injective (e1 e2 : env) (st1 st2 : state)
    (city1 city2 : list string) (imperial1 imperial2 : bool) (url : string) :
  fst (build_weather_query city1 imperial1 e1 st1) = Ret url ->
  fst (build_weather_query city2 imperial2 e2 st2) = Ret url ->
  PyStr.join " " city1 = PyStr.join " " city2 /\
  imperial1 = imperial2 /\
  stored_api_key (secrets_ini e1) = stored_api_key (secrets_ini e2).
Proof.
  intros H1 H2.
  destruct (build_weather_query_inv _ _ _ _ _ H1) as (key1 & enc1 & Hk1 & He1 & ->).
  destruct (build_weather_query_inv _ _ _ _ _ H2) as (key2 & enc2 & Hk2 & He2 & Hu).
  pose proof (quote_plus_chars _ _ He1) as Hc1.
  pose proof (quote_plus_chars _ _ He2) as Hc2.
  unfold query_url_of in Hu. rewrite !url_split in Hu.
  apply (inj (append _)) in Hu.
  apply (cut_unique "&") in Hu as [Henc Hrest];
    [| now apply encoded_is_not ..].
  destruct (quote_plus_inv _ _ He1) as [_ ->].
  destruct (quote_plus_inv _ _ He2) as [_ ->].
  apply (f_equal percent_decode) in Henc. rewrite !percent_decode_encode in Henc.
  rewrite Hk1, Hk2.
  destruct imperial1, imperial2; try discriminate Hrest;
    cbn in Hrest; injection Hrest as ->; auto.
Qed.

Lemma build_weather_query_injective_witness :
  PyStr.join " " ["New York"] = PyStr.join " " ["New"; "York"] /\
  true = true /\
  stored_api_key (secrets_ini demo) = stored_api_key (secrets_ini demo_elsewhere).
Proof.
  apply (build_weather_query_injective demo demo_elsewhere initial initial
           ["New York"] ["New"; "York"] true true
           "http://api.openweathermap.org/data/2.5/weather?q=New+York&units=imperial&appid=0123456789abcdef");
    vm_compute; reflexivity.
Defined.

(** X3: the encoded city is made token by token: when every token can be
    encoded, [build_weather_query] returns the URL whose [q] is the
    [quote_plus] of each token, joined by [+]. *)
Theorem build_weather_query_tokens (e : env) (st : state)
    (city_input : list string) (imperial : bool) (key : string) :
  stored_api_key (secrets_ini e) = Some key ->
  Forall (fun tok => PyStr.has_surrogate tok = false) city_input ->
  exists encs,
    Forall2 (fun tok enc => Urllib.quote_plus tok = Ret enc) city_input encs /\
    fst (build_weather_query city_input imperial e st) =
      Ret (BASE_WEATHER_API_URL +:+ "?q=" +:+ PyStr.join "+" encs +:+ "&units=" +:+
           (if imperial then "imperial" else "metric") +:+ "&appid=" +:+ key).
Proof.
  intros Hkey Htoks. exists (map plus_encode city_input). split.
  - induction Htoks as [|tok rest Htok _ IH]; constructor; [| exact IH].
    now apply quote_plus_bytewise.
  - rewrite (build_weather_query_run e st city_input imperial key
               (plus_encode (PyStr.join " " city_input)) Hkey).
    + now rewrite plus_encode_join.
    + apply quote_plus_bytewise. now apply has_surrogate_join.
Qed.

Lemma build_weather_query_tokens_witness :
  exists encs,
    Forall2 (fun tok enc => Urllib.quote_plus tok = Ret enc)
      ["São"; "Paulo"] encs /\
    fst (build_weather_query ["São"; "Paulo"] false demo initial) =
      Ret (BASE_WEATHER_API_URL +:+ "?q=" +:+ PyStr.join "+" encs +:+ "&units=" +:+
           (if false then "imperial" else "metric") +:+ "&appid=" +:+
           "0123456789abcdef").
Proof.
  apply (build_weather_query_tokens demo initial ["São"; "Paulo"] false
           "0123456789abcdef").
  - reflexivity.
  - repeat constructor.
Defined.

(** ** The whole program *)

Ltac case_outcome :=
  match goal with
  | |- context [match ?o with Ret _ => _ | Raise _ => _ | SysExit _ => _ end] =>
      destruct o eqn:?
  end.


Lemma format_center_no_exit (v : value) (width : nat) (msg : string) :
  PyObj.format_center v width <> SysExit msg.
Proof. now destruct v. Qed.

Lemma getitem_no_exit (v : value) (key msg : string) :
  PyObj.getitem v key <> SysExit msg.
Proof.
  destruct v; cbn; try discriminate. now destruct (PyObj.lookup_item key items).
Qed.

Lemma getitem0_no_exit (v : value) (msg : string) : PyObj.getitem0 v <> SysExit msg.
Proof.
  destruct v as [| | | |s|l|]; cbn; try discriminate.
  - now destruct (PyStr.first_char s).
  - now destruct l.
Qed.

Lemma capitalize_no_exit (v : value) (msg : string) : PyObj.capitalize v <> SysExit msg.
Proof. now destruct v. Qed.

Lemma print_result_no_exit (weather_data : value) (imperial : bool)
    (e : env) (st : state) (msg : string) :
  fst (print_result weather_data imperial e st) <> SysExit msg.
Proof.
  unfold print_result. run_program.
  repeat (case_outcome; cbn); try discriminate;
    match goal with
    | H : PyObj.getitem _ _ = SysExit _ |- _ => now apply getitem_no_exit in H
    | H : PyObj.getitem0 _ = SysExit _ |- _ => now apply getitem0_no_exit in H
    | H : PyObj.format_center _ _ = SysExit _ |- _ => now apply format_center_no_exit in H
    | H : PyObj.capitalize _ = SysExit _ |- _ => now apply capitalize_no_exit in H
    end.
Qed.

Lemma build_weather_query_cases (e : env) (st : state)
    (city_input : list string) (imperial : bool) :
  (exists url, build_weather_query city_input imperial e st = (Ret url, after_read st)) \/
  (exists x, build_weather_query city_input imperial e st = (Raise x, after_read st)).
Proof.
  pose proof (build_weather_query_effect e st city_input imperial) as Hst.
  destruct (build_weather_query city_input imperial e st) as [[url|x|msg] st'] eqn:E;
    cbn in Hst; subst st'; [left; eauto | right; eauto |].
  exfalso. revert E.
  unfold build_weather_query, bind at 1. rewrite get_api_key_run.
  destruct (credential (secrets_ini e)) as [key|x|m] eqn:Hc; try discriminate.
  - unfold bind, lift, ret, Urllib.quote_plus, Urllib.quote.
    destruct (PyStr.has_surrogate _), (negb _); discriminate.
  - now apply credential_no_exit in Hc.
Qed.

Lemma urlopen_failure_raised (e : env) (st : state) (url : string) (x : exn) :
  network e url = Failure x ->
  (forall code, x <> HTTPError code) ->
  get_weather_data url e st = (Raise x, after_get url st).
Proof.
  intros Hnet Hx. unfold get_weather_data, urlopen. run_program. rewrite Hnet. cbn.
  destruct x; try reflexivity. now destruct (Hx code).
Qed.

(** X4: an exception of [urlopen] that is not an [HTTPError] (a [URLError]
    of a failed connection, say) is not handled: [get_weather_data] raises
    it as it is, after the one GET, with nothing printed and no exit
    message. *)
Theorem get_weather_data_other_failure (e : env) (st : state) (url : string)
    (x : exn) :
  network e url = Failure x ->
  (forall code, x <> HTTPError code) ->
  fst (get_weather_data url e st) = Raise x /\
  stdout (snd (get_weather_data url e st)) = stdout st /\
  log (snd (get_weather_data url e st)) = (log st ++ [HttpGet url])%list.
Proof.
  intros Hnet Hx. now rewrite (urlopen_failure_raised e st url x Hnet Hx).
Qed.

Lemma get_weather_data_other_failure_witness :
  fst (get_weather_data paris_url demo_elsewhere initial) = Raise URLError /\
  stdout (snd (get_weather_data paris_url demo_elsewhere initial)) = stdout initial /\
  log (snd (get_weather_data paris_url demo_elsewhere initial)) =
    (log initial ++ [HttpGet paris_url])%list.
Proof.
  apply (get_weather_data_other_failure demo_elsewhere initial paris_url URLError);
    [reflexivity | discriminate].
Defined.

Lemma get_weather_data_cases (e : env) (st : state) (url : string) :
  (exists msg, get_weather_data url e st = (SysExit msg, after_get url st) /\
               designed_message msg) \/
  (exists x, get_weather_data url e st = (Raise x, after_get url st)) \/
  (exists body,
     network e url = Response body /\
     get_weather_data url e st =
       (match PyJson.loads (json_decoder e) body with
        | Raise JSONDecodeError => SysExit "Couldn't read the server response."
        | other => other
        end, after_loads url body st)).
Proof.
  destruct (network e url) as [body|x] eqn:Hnet.
  - right; right. exists body. split; [reflexivity |].
    now apply get_weather_data_body.
  - destruct x;
      try (right; left; eexists;
           apply (urlopen_failure_raised e st url _ Hnet); discriminate).
    left. eexists. split; [apply (get_weather_data_http_error e st url code Hnet) |].
    unfold designed_message.
    destruct (code =? 401); [now left |].
    destruct (code =? 404); [now right; left |].
    right; right; right. now exists code.
Qed.


(** X6: from the parsed arguments on (lines 108-110), whenever the program
    ends through a [sys.exit] of its own, nothing has been written to
    standard output and the message is one of the program's four: the
    access-denied one, the not-found one, "Something went wrong... (code)"
    or "Couldn't read the server response." (for a JSON decoder that
    returns or raises). *)
Theorem main_exit_message (user_args : Namespace) (e : env) (st : state)
    (msg : string) :
  decoder_raises_only e ->
  fst (main user_args e st) = SysExit msg ->
  stdout (snd (main user_args e st)) = stdout st /\ designed_message msg.
Proof.
  intros Hdec. unfold main, bind.
  destruct (build_weather_query_cases e st (city user_args) (imperial user_args))
    as [[url Hb]|[x Hb]]; rewrite Hb; [| discriminate].
  destruct (get_weather_data_cases e (after_read st) url)
    as [(m & Hg & Hm)|[(x & Hg)|(body & Hnet & Hg)]]; rewrite Hg.
  - cbn. now intros [= <-].
  - discriminate.
  - unfold PyJson.loads.
    destruct (PyJson.decode _ _) as [text|]; [| discriminate].
    destruct (json_decoder e text) as [v|x|m] eqn:Htext.
    + intros H. now apply print_result_no_exit in H.
    + destruct x; try discriminate. cbn. intros [= <-].
      split; [reflexivity |]. unfold designed_message. auto.
    + now destruct (Hdec text m).
Qed.

Lemma main_exit_message_witness :
  stdout (snd (main {| city := ["Atlantis"]; imperial := false |} (refusing 404) initial)) =
    stdout initial /\
  designed_message "Can't find weather data for this city.".
Proof.
  apply (main_exit_message {| city := ["Atlantis"]; imperial := false |}
           (refusing 404) initial).
  - intros text msg. unfold refusing, world, json_decoder.
    destruct (String.eqb text paris_body); discriminate.
  - vm_compute. reflexivity.
Defined.

(** X7: when lines 108-110 run to their end, without an exception and
    without [sys.exit], the text on standard output ends with the symbol of
    the flag in the parsed arguments, a closing bracket and a line feed:
    "F" with [imperial] set, "C" without. *)
Theorem main_success_symbol (user_args : Namespace) (e : env) (st : state) :
  fst (main user_args e st) = Ret tt ->
  PyStr.endswith (stdout (snd (main user_args e st)))
    ((if imperial user_args then "F" else "C") +:+ ")" +:+ newline) = true.
Proof.
  unfold main, bind.
  destruct (build_weather_query (city user_args) (imperial user_args) e st)
    as [[url|x|msg] st1]; try discriminate.
  destruct (get_weather_data url e st1) as [[v|x|msg] st2]; try discriminate.
  apply print_result_symbol.
Qed.

Lemma main_success_symbol_witness :
  PyStr.endswith
    (stdout (snd (main {| city := ["Paris"]; imperial := true |} demo initial)))
    ((if imperial {| city := ["Paris"]; imperial := true |} then "F" else "C")
       +:+ ")" +:+ newline) = true.
Proof.
  apply (main_success_symbol {| city := ["Paris"]; imperial := true |} demo initial).
  vm_compute. reflexivity.
Defined.

Lemma main_run_success (user_args : Namespace) (e : env) (st : state)
    (key enc body : string) (payload : value) :
  stored_api_key (secrets_ini e) = Some key ->
  Urllib.quote_plus (PyStr.join " " (city user_args)) = Ret enc ->
  network e (query_url_of enc (imperial user_args) key) = Response body ->
  PyJson.loads (json_decoder e) body = Ret payload ->
  main user_args e st =
  print_result payload (imperial user_args) e
    (after_loads (query_url_of enc (imperial user_args) key) body (after_read st)).
Proof.
  intros Hkey Henc Hnet Hloads. unfold main, bind.
  rewrite (build_weather_query_run e st _ _ key enc Hkey Henc).
  rewrite (get_weather_data_body e _ _ body Hnet), Hloads. reflexivity.
Qed.

(** ** The body of a response *)

Section Bytes.

Lemma chr_code (c : ascii) : PyStr.chr (PyStr.code c) = c.
Proof. unfold PyStr.chr, PyStr.code. rewrite N2Z.id. apply ascii_N_embedding. Qed.

Lemma text_of_byte_list (body : string) :
  string_of_list_ascii (map PyStr.chr (PyJson.byte_list body)) = body.
Proof.
  unfold PyJson.byte_list.
  induction body as [|c body IH]; [reflexivity |].
  cbn [list_ascii_of_string map string_of_list_ascii].
  now rewrite chr_code, IH.
Qed.

Lemma between_spec (lo hi b : Z) :
  PyJson.between lo hi b = true -> lo <= b <= hi.
Proof. unfold PyJson.between. intros [H1 H2]%andb_true_iff. lia. Qed.

(** No well-formed UTF-8 text starts with a byte above [0xF4]. *)
Lemma utf8_ok_lead (a : Z) (tl : list Z) :
  PyJson.utf8_ok (a :: tl) = true -> a < 245.
Proof.
  cbn [PyJson.utf8_ok].
  destruct (Z.ltb_spec a 128); [lia |].
  destruct tl as [|b tl]; [discriminate |].
  destruct (PyJson.between 194 223 a) eqn:E1; [apply between_spec in E1; lia |].
  destruct tl as [|c tl]; [discriminate |].
  destruct (PyJson.between 224 239 a) eqn:E2; [apply between_spec in E2; lia |].
  destruct tl as [|d tl]; [discriminate |].
  intros Hall. do 4 (apply andb_true_iff in Hall; destruct Hall as [Hall _]).
  apply between_spec in Hall. lia.
Qed.

Lemma detect_encoding_plain (bs : list Z) :
  PyJson.utf8_ok bs = true ->
  forallb (fun b => negb (b =? 0)) bs = true ->
  PyJson.starts_with [239; 187; 191] bs = false ->
  PyJson.detect_encoding bs = PyJson.UTF8.
Proof.
  intros Hok Hnz Hbom. unfold PyJson.detect_encoding. rewrite Hbom.
  destruct bs as [|a bs]; [reflexivity |].
  pose proof (utf8_ok_lead a bs Hok) as Ha.
  cbn [forallb] in Hnz. apply andb_true_iff in Hnz as [Ha0 Hnz].
  apply negb_true_iff, Z.eqb_neq in Ha0.
  assert (E0 : (0 =? a) = false) by (apply Z.eqb_neq; lia).
  assert (E254 : (254 =? a) = false) by (apply Z.eqb_neq; lia).
  assert (E255 : (255 =? a) = false) by (apply Z.eqb_neq; lia).
  assert (Ea : (a =? 0) = false) by (apply Z.eqb_neq; lia).
  cbn [PyJson.starts_with PyJson.byte_at nth]. rewrite E0, E254, E255, Ea. cbn [andb orb].
  destruct bs as [|b bs]; [reflexivity |].
  cbn [forallb] in Hnz. apply andb_true_iff in Hnz as [Hb0 _].
  apply negb_true_iff in Hb0.
  cbn [nth]. rewrite Hb0.
  destruct bs as [|c [|d bs]]; reflexivity.
Qed.

End Bytes.

(** X9: a response body that is UTF-8 text as it stands (well formed, no
    NUL byte, no byte order mark) reaches the decoder of JSON text exactly
    as the server sent it: [get_weather_data] returns what the decoder makes
    of the body, exits with "Couldn't read the server response." when the
    decoder raises [JSONDecodeError], and prints nothing. *)
Theorem get_weather_data_plain_body (e : env) (st : state) (url body : string) :
  network e url = Response body ->
  plain_utf8 body = true ->
  get_weather_data url e st =
    (match json_decoder e body with
     | Raise JSONDecodeError => SysExit "Couldn't read the server response."
     | other => other
     end, after_loads url body st).
Proof.
  intros Hnet Hplain. rewrite (get_weather_data_body e st url body Hnet).
  unfold plain_utf8 in Hplain.
  apply andb_true_iff in Hplain as [[Hok Hnz]%andb_true_iff Hbom].
  apply negb_true_iff in Hbom.
  unfold PyJson.loads.
  rewrite (detect_encoding_plain _ Hok Hnz Hbom). cbn [PyJson.decode].
  now rewrite Hok, text_of_byte_list.
Qed.

Lemma get_weather_data_plain_body_witness :
  get_weather_data paris_url demo (after_read initial) =
    (match json_decoder demo paris_body with
     | Raise JSONDecodeError => SysExit "Couldn't read the server response."
     | other => other
     end, after_loads paris_url paris_body (after_read initial)).
Proof.
  apply (get_weather_data_plain_body demo (after_read initial) paris_url paris_body);
    vm_compute; reflexivity.
Defined.

(** ** More on the printed line *)

Ltac case_fields :=
  repeat match goal with
    | H : context [match ?o with Ret _ => _ | Raise _ => _ | SysExit _ => _ end] |- _ =>
        destruct o eqn:?; cbn in H; try discriminate H
    end.

Lemma print_result_returns_iff (weather_data : value) (imperial : bool)
    (e : env) (st : state) :
  fst (print_result weather_data imperial e st) = Ret tt <-> printable weather_data.
Proof.
  rewrite print_result_by_fields. unfold printable. split.
  - unfold print_fields. run_program. intros H.
    destruct (field_name weather_data) as [name| |]; cbn in H; try discriminate H.
    destruct (field_country weather_data) as [country| |]; cbn in H; try discriminate H.
    destruct (field_description weather_data) as [description| |]; cbn in H;
      try discriminate H.
    destruct (field_temp weather_data) as [temp| |]; cbn in H; try discriminate H.
    destruct name; cbn in H; try discriminate H;
      destruct description; cbn in H; try discriminate H;
      eexists _, _, _, _; repeat split.
  - intros (name & country & description & temp & -> & Hname & -> & -> & ->).
    unfold print_fields. run_program.
    destruct name; try discriminate Hname; reflexivity.
Qed.

(** X10: [print_result] returns only on a payload that has the four fields
    with a [name] that is text or a number and a [description] that is
    text (the country and the temperature may be any JSON value); on every
    other payload it raises an exception; and it never calls
    [sys.exit]. *)
Theorem print_result_accepts (weather_data : value) (imperial : bool)
    (e : env) (st : state) :
  (fst (print_result weather_data imperial e st) = Ret tt ->
   exists name country description temp,
     field_name weather_data = Ret name /\
     formattable name = true /\
     field_country weather_data = Ret country /\
     field_description weather_data = Ret (VStr description) /\
     field_temp weather_data = Ret temp) /\
  (~ printable weather_data ->
   exists x, fst (print_result weather_data imperial e st) = Raise x) /\
  (forall msg, fst (print_result weather_data imperial e st) <> SysExit msg).
Proof.
  split; [apply print_result_returns_iff |]. split.
  - intros Hnot.
    destruct (fst (print_result weather_data imperial e st)) as [[]|x|msg] eqn:E.
    + now apply print_result_returns_iff in E.
    + now exists x.
    + now apply print_result_no_exit in E.
  - intros msg. apply print_result_no_exit.
Qed.

Lemma print_fields_line (name country temp : value) (description : string)
    (e : env) (st : state) :
  formattable name = true ->
  exists written,
    forall flag,
      print_fields (Ret name) (Ret country) (Ret (VStr description)) (Ret temp)
        flag e st =
      (Ret tt,
       {| stdout :=
            stdout st +:+ written +:+ "(" +:+ PyObj.format_plain temp +:+ "Â°" +:+
            (if flag then "F" else "C") +:+ ")" +:+ newline;
          log := log st |}).
Proof.
  intros Hname.
  destruct (PyObj.format_center name (PADDING (style e))) as [field| |] eqn:Hfield;
    [| destruct name; discriminate ..].
  exists (change_color_text (style e) (REVERSE (style e)) +:+
          change_color_text (style e) (RED (style e)) +:+
          field +:+ ", " +:+ PyObj.format_plain country +:+
          change_color_text (style e) (RESET (style e)) +:+
          change_color_text (style e) (RED (style e)) +:+
          String (PyStr.chr 9)
            (PyStr.center (PyStr.capitalize description) (PADDING (style e))) +:+ " " +:+
          change_color_text (style e) (RESET (style e))).
  intros flag. unfold print_fields. run_program. rewrite Hfield. cbn.
  f_equal. f_equal. destruct flag; normalize_text; reflexivity.
Qed.

(** X11: the temperature is printed as the payload gives it, whatever the
    flag.  When [print_result] returns for a payload whose [main.temp] is a
    JSON number, it returns under either flag, and what it writes ends with
    the opening bracket, the number as Python writes it ([str] of the
    [int] or [float], with no conversion and no rounding), the literal of
    line 104, the unit symbol of the flag, the closing bracket and a line
    feed; the text before the bracket is the same under both flags.  So the
    flag changes one letter and nothing else. *)
Theorem print_result_flag (weather_data : value) (imperial : bool)
    (e : env) (st : state) (temp : value) :
  fst (print_result weather_data imperial e st) = Ret tt ->
  field_temp weather_data = Ret temp ->
  numeric temp = true ->
  exists written,
    forall flag,
      print_result weather_data flag e st =
      (Ret tt,
       {| stdout :=
            stdout st +:+ written +:+ "(" +:+
            match temp with
            | VFloat f => PyFloat.repr f
            | VInt n => pretty n
            | _ => ""
            end +:+ "Â°" +:+
            (if flag then "F" else "C") +:+ ")" +:+ newline;
          log := log st |}).
Proof.
  intros H Htemp Hnum. apply print_result_returns_iff in H
    as (name & country & description & temp' & Hn & Hname & Hc & Hd & Ht).
  rewrite Htemp in Ht. injection Ht as <-.
  destruct (print_fields_line name country temp description e st Hname)
    as [written Hline].
  exists written. intros flag.
  rewrite print_result_by_fields, Hn, Hc, Hd, Htemp, Hline.
  destruct temp; try discriminate Hnum; reflexivity.
Qed.

Lemma print_result_flag_witness :
  exists written,
    forall flag,
      print_result paris flag demo initial =
      (Ret tt,
       {| stdout :=
            stdout initial +:+ written +:+ "(" +:+ PyFloat.repr 18.5%float +:+ "Â°" +:+
            (if flag then "F" else "C") +:+ ")" +:+ newline;
          log := log initial |}).
Proof.
  apply (print_result_flag paris false demo initial (VFloat 18.5%float));
    vm_compute; reflexivity.
Defined.

Lemma getitem_no_attribute (v : value) (key : string) :
  PyObj.getitem v key <> Raise AttributeError.
Proof.
  destruct v; cbn; try discriminate. now destruct (PyObj.lookup_item key items).
Qed.

Lemma getitem0_no_attribute (v : value) : PyObj.getitem0 v <> Raise AttributeError.
Proof.
  destruct v as [| | | |s|l|]; cbn; try discriminate.
  - now destruct (PyStr.first_char s).
  - now destruct l.
Qed.

Lemma fields_no_attribute (payload : value) :
  field_name payload <> Raise AttributeError /\
  field_country payload <> Raise AttributeError /\
  field_description payload <> Raise AttributeError /\
  field_temp payload <> Raise AttributeError.
Proof.
  unfold field_name, field_country, field_description, field_temp, and_then.
  repeat split.
  - apply getitem_no_attribute.
  - destruct (PyObj.getitem payload "sys") eqn:E; try discriminate;
      [apply getitem_no_attribute | intros [= ->]; now apply getitem_no_attribute in E].
  - destruct (PyObj.getitem payload "weather") as [weather|x|] eqn:E; try discriminate;
      [| intros [= ->]; now apply getitem_no_attribute in E].
    destruct (PyObj.getitem0 weather) eqn:E0; try discriminate;
      [apply getitem_no_attribute | intros [= ->]; now apply getitem0_no_attribute in E0].
  - destruct (PyObj.getitem payload "main") eqn:E; try discriminate;
      [apply getitem_no_attribute | intros [= ->]; now apply getitem_no_attribute in E].
Qed.

(** X12: the line is printed in parts, so an exception can leave a part of
    it on standard output.  [print_result] raises [AttributeError] only
    from [weather_description.capitalize()], when the description is there
    and is not text; by then the name column and the comma after it are on
    standard output (the country follows them). *)
Theorem print_result_partial (weather_data : value) (imperial : bool)
    (e : env) (st : state) :
  fst (print_result weather_data imperial e st) = Raise AttributeError ->
  exists name description field written,
    field_name weather_data = Ret name /\
    field_description weather_data = Ret description /\
    (forall s, description <> VStr s) /\
    PyObj.format_center name (PADDING (style e)) = Ret field /\
    stdout (snd (print_result weather_data imperial e st)) =
      stdout st +:+ written /\
    PyStr.contains (field +:+ ", ") written = true.
Proof.
  destruct (fields_no_attribute weather_data) as (Hn & Hc & Hd & Ht).
  rewrite print_result_by_fields. unfold print_fields. run_program. intros H.
  destruct (field_name weather_data) as [name|x|]; cbn in H |- *;
    [| injection H as ->; now destruct Hn | discriminate H].
  destruct (field_country weather_data) as [country|x|]; cbn in H |- *;
    [| injection H as ->; now destruct Hc | discriminate H].
  destruct (field_description weather_data) as [description|x|]; cbn in H |- *;
    [| injection H as ->; now destruct Hd | discriminate H].
  destruct (field_temp weather_data) as [temp|x|]; cbn in H |- *;
    [| injection H as ->; now destruct Ht | discriminate H].
  destruct (PyObj.format_center name (PADDING (style e))) as [field|x|] eqn:Hfield;
    cbn in H |- *;
    [| injection H as ->; destruct name; discriminate Hfield
     | destruct name; discriminate Hfield].
  exists name, description, field.
  destruct description; cbn in H |- *; try discriminate H.
  all: exists (change_color_text (style e) (REVERSE (style e)) +:+
               change_color_text (style e) (RED (style e)) +:+
               (field +:+ ", ") +:+
               (PyObj.format_plain country +:+
                change_color_text (style e) (RESET (style e)) +:+
                change_color_text (style e) (RED (style e))));
    repeat split; try discriminate; try exact Hfield;
    [normalize_text; reflexivity
    | found_between
        (change_color_text (style e) (REVERSE (style e)) +:+
         change_color_text (style e) (RED (style e)))
        (PyObj.format_plain country +:+
         change_color_text (style e) (RESET (style e)) +:+
         change_color_text (style e) (RED (style e)))].
Qed.

Lemma print_result_partial_witness :
  exists name description field written,
    field_name paris_null_description = Ret name /\
    field_description paris_null_description = Ret description /\
    (forall s, description <> VStr s) /\
    PyObj.format_center name (PADDING (style demo)) = Ret field /\
    stdout (snd (print_result paris_null_description false demo initial)) =
      stdout initial +:+ written /\
    PyStr.contains (field +:+ ", ") written = true.
Proof.
  apply (print_result_partial paris_null_description false demo initial).
  vm_compute. reflexivity.
Defined.

Section Columns.

Implicit Types s t : string.

Lemma len_app s t : PyStr.len (s +:+ t) = (PyStr.len s + PyStr.len t)%nat.
Proof.
  induction s as [|c s IH]; simpl; [reflexivity |].
  destruct (PyStr.is_continuation c); now rewrite IH.
Qed.

Lemma len_spaces (n : nat) : PyStr.len (PyStr.repeat " " n) = n.
Proof.
  induction n as [|n IH]; [reflexivity |].
  cbn [PyStr.repeat PyStr.len].
  change (PyStr.is_continuation " ") with false. cbn. now rewrite IH.
Qed.

End Columns.

(** X13: a column is never narrower than [style.PADDING] and never cuts its
    text: the field that [{text:^PADDING}] gives for a text has
    [max(len(text), PADDING)] characters and is the text between two runs of
    spaces, the right one equal to the left one or longer by one. *)
Theorem format_center_width (s : string) (width : nat) :
  exists left right,
    PyObj.format_center (VStr s) width =
      Ret (PyStr.repeat " " left +:+ s +:+ PyStr.repeat " " right) /\
    PyStr.len (PyStr.repeat " " left +:+ s +:+ PyStr.repeat " " right) =
      Nat.max (PyStr.len s) width /\
    (left <= right <= left + 1)%nat.
Proof.
  exists (Nat.div (width - PyStr.len s) 2),
         (width - PyStr.len s - Nat.div (width - PyStr.len s) 2)%nat.
  pose proof (Nat.div_mod_eq (width - PyStr.len s) 2) as Hdiv.
  pose proof (Nat.mod_upper_bound (width - PyStr.len s) 2 ltac:(lia)) as Hmod.
  split; [reflexivity |]. split.
  - rewrite !len_app, !len_spaces. lia.
  - lia.
Qed.

(** X14: when [_get_api_key] raises (no readable [secrets.ini], no section
    [openweather], no option [api_key], or a value that cannot be
    interpolated), lines 108-110 stop there: the program ends with that
    very exception after the one [config.read], whatever the parsed
    arguments are, without a call of [urlopen] and with nothing
    printed. *)
Theorem main_without_credential (user_args : Namespace) (e : env) (st : state)
    (x : exn) :
  fst (_get_api_key e st) = Raise x ->
  main user_args e st = (Raise x, after_read st).
Proof.
  rewrite get_api_key_run. cbn [fst]. intros Hx.
  unfold main, build_weather_query, bind. now rewrite get_api_key_run, Hx.
Qed.

Lemma main_without_credential_witness :
  main {| city := ["Paris"]; imperial := false |} keyless initial =
  (Raise (KeyError (VStr "openweather")), after_read initial).
Proof.
  apply (main_without_credential {| city := ["Paris"]; imperial := false |}
           keyless initial (KeyError (VStr "openweather"))).
  reflexivity.
Defined.

(** X15: a city that cannot be encoded as UTF-8 (a token holding a lone
    surrogate, as the undecodable bytes of a command line give) ends the
    program with [UnicodeEncodeError] uncaught, after the read of
    [secrets.ini] and before any request. *)
Theorem main_unencodable_city (user_args : Namespace) (e : env) (st : state)
    (key : string) :
  stored_api_key (secrets_ini e) = Some key ->
  PyStr.has_surrogate (PyStr.join " " (city user_args)) = true ->
  main user_args e st = (Raise UnicodeEncodeError, after_read st).
Proof.
  intros Hkey Hcity. unfold main, build_weather_query, bind.
  rewrite (get_api_key_stored e st key Hkey).
  unfold lift, Urllib.quote_plus, Urllib.quote. rewrite Hcity.
  now destruct (negb _).
Qed.

Lemma main_unencodable_city_witness :
  main {| city := ["Paris"; surrogate_dcff]; imperial := false |} demo initial =
  (Raise UnicodeEncodeError, after_read initial).
Proof.
  apply (main_unencodable_city
           {| city := ["Paris"; surrogate_dcff]; imperial := false |} demo initial
           "0123456789abcdef"); reflexivity.
Defined.

(** X8: lines 108-110 run to their end only if every step succeeded:
    [_get_api_key] returned a credential, the city could be encoded,
    [urlopen] returned a response for the URL built from the two,
    [json.loads] decoded its body, and the payload has the four fields with
    a name that is text or a number and a description that is text.  The
    run then ends as [print_result] does on that payload. *)
Theorem main_success_steps (user_args : Namespace) (e : env) (st : state) :
  fst (main user_args e st) = Ret tt ->
  exists key enc body payload,
    stored_api_key (secrets_ini e) = Some key /\
    Urllib.quote_plus (PyStr.join " " (city user_args)) = Ret enc /\
    network e (query_url_of enc (imperial user_args) key) = Response body /\
    PyJson.loads (json_decoder e) body = Ret payload /\
    printable payload /\
    main user_args e st =
      print_result payload (imperial user_args) e
        (after_loads (query_url_of enc (imperial user_args) key) body (after_read st)).
Proof.
  intros Hmain.
  destruct (build_weather_query (city user_args) (imperial user_args) e st)
    as [ob st1] eqn:Hb.
  destruct ob as [url|x|msg];
    try (unfold main, bind in Hmain; rewrite Hb in Hmain; discriminate Hmain).
  pose proof (build_weather_query_inv e st (city user_args) (imperial user_args) url)
    as Hinv.
  rewrite Hb in Hinv. destruct (Hinv eq_refl) as (key & enc & Hkey & Henc & ->).
  pose proof (build_weather_query_effect e st (city user_args) (imperial user_args))
    as Hst.
  rewrite Hb in Hst. cbn in Hst. subst st1.
  destruct (network e (query_url_of enc (imperial user_args) key))
    as [body|x] eqn:Hnet.
  - pose proof (get_weather_data_body e (after_read st) _ body Hnet) as Hg.
    unfold main, bind in Hmain. rewrite Hb, Hg in Hmain.
    destruct (PyJson.loads (json_decoder e) body) as [payload|x|msg] eqn:Hloads;
      [| destruct x; discriminate Hmain | discriminate Hmain].
    exists key, enc, body, payload. repeat split; try assumption.
    + now apply print_result_returns_iff in Hmain.
    + now apply main_run_success.
  - exfalso. unfold main, bind in Hmain. rewrite Hb in Hmain.
    destruct x;
      try (rewrite (urlopen_failure_raised e _ _ _ Hnet) in Hmain;
           [discriminate Hmain | discriminate]).
    rewrite (get_weather_data_http_error e _ _ code Hnet) in Hmain.
    discriminate Hmain.
Qed.

Lemma main_success_steps_witness :
  exists key enc body payload,
    stored_api_key (secrets_ini demo) = Some key /\
    Urllib.quote_plus (PyStr.join " " ["Paris"]) = Ret enc /\
    network demo (query_url_of enc true key) = Response body /\
    PyJson.loads (json_decoder demo) body = Ret payload /\
    printable payload /\
    main {| city := ["Paris"]; imperial := true |} demo initial =
      print_result payload true demo
        (after_loads (query_url_of enc true key) body (after_read initial)).
Proof.
  apply (main_success_steps {| city := ["Paris"]; imperial := true |} demo initial).
  vm_compute. reflexivity.
Defined.
